(** * Wikipedia Research Agent: the research pipeline and the summarizer

    A shallow embedding of [deep_research], [call_llm] and
    [generate_summary] of [Deep_research.py], with the values the code
    handles modelled the way the Python interpreter handles them: decoded
    JSON is dynamically typed, every operation on it can raise, and the
    outside world (clock, Wikipedia, the two LLM providers) is an oracle. *)

From Stdlib Require Import String Ascii Decimal DecimalString.
From Stdlib Require Import List ZArith QArith Bool Lia.
Import ListNotations.
Local Close Scope Q_scope.
Local Open Scope list_scope.

Set Implicit Arguments.
Set Warnings "-register-all".

(** ** Python values *)

Module Py.

(** A Python [str] is a sequence of code points. *)
Definition char := N.
Definition str := list char.

(** ASCII literals of the program text. *)
Definition lit (s : string) : str :=
  map N_of_ascii (list_ascii_of_string s).

Definition str_eqb (a b : str) : bool :=
  if list_eq_dec N.eq_dec a b then true else false.

(** [needle in haystack] on two strings: substring search. *)
Fixpoint starts_with (needle hay : str) : bool :=
  match needle, hay with
  | [], _ => true
  | _ :: _, [] => false
  | a :: needle', b :: hay' => N.eqb a b && starts_with needle' hay'
  end.

Fixpoint contains (needle hay : str) : bool :=
  starts_with needle hay ||
  match hay with
  | [] => false
  | _ :: hay' => contains needle hay'
  end.

(** [str(n)] for a non-negative counter. *)
Definition str_of_nat (n : nat) : str :=
  lit (NilEmpty.string_of_uint (Nat.to_uint n)).

(** [s.replace(old, new)] for one-character [old] and [new]. *)
Definition replace_char (old new : char) (s : str) : str :=
  map (fun c => if N.eqb c old then new else c) s.

(** [seq[:n]]: the first [n] items, and for a negative [n] all but the
    last [-n]. *)
Definition slice_to (A : Type) (n : Z) (l : list A) : list A :=
  if (0 <=? n)%Z then firstn (Z.to_nat n) l
  else firstn (length l - Z.to_nat (- n)) l.

(** What [json.loads] (and [Response.json()]) returns: [None], [bool],
    a number, [str], [list], or [dict] with string keys in insertion
    order (a [dict] has no two entries with the same key; nothing below
    relies on it).  Numbers are kept as integers: the code never computes
    with a decoded number, it only tests one for truth. *)
Inductive value : Type :=
| VNone
| VBool (b : bool)
| VNum (n : Z)
| VStr (s : str)
| VList (items : list value)
| VDict (entries : list (str * value)).

(** Built-in exceptions the operations below raise, all subclasses of
    [Exception]. *)
Inductive builtin := TypeError | KeyError | IndexError | AttributeError.

(** An exception is either one the interpreter raised on an operand, or
    one raised with an explicit message (by [requests], by [groq], or by
    the program's own [raise RuntimeError(...)]). *)
Inductive exn : Type :=
| Builtin (kind : builtin) (operand : value)
| Raised (message : str).

Inductive result (A : Type) : Type :=
| Ok (a : A)
| Raise (e : exn).
Arguments Ok {A} a.
Arguments Raise {A} e.

Definition bind_r (A B : Type) (m : result A) (k : A -> result B) : result B :=
  match m with
  | Ok a => k a
  | Raise e => Raise e
  end.

(** Code that also acts on the outside world threads a log [S] of what it
    did; a raised exception leaves the log as it was when raised. *)
Definition io (S A : Type) : Type := S -> result A * S.

Definition ret (S A : Type) (a : A) : io S A := fun s => (Ok a, s).

Definition raise (S A : Type) (e : exn) : io S A := fun s => (Raise e, s).

Definition bind (S A B : Type) (m : io S A) (k : A -> io S B) : io S B :=
  fun s =>
    match m s with
    | (Ok a, s') => k a s'
    | (Raise e, s') => (Raise e, s')
    end.

Definition lift (S A : Type) (r : result A) : io S A := fun s => (r, s).

Arguments ret {S A} a.
Arguments raise {S A} e.
Arguments lift {S A} r.

(** [try: body  except Exception as e: handler(e)] *)
Definition try_except (S A : Type) (body : io S A) (handler : exn -> io S A)
  : io S A :=
  fun s =>
    match body s with
    | (Ok a, s') => (Ok a, s')
    | (Raise e, s') => handler e s'
    end.

(** What the interpreter alone decides: the wording of built-in errors
    and [str()] of a container. *)
Record interpreter := {
  errmsg : builtin -> value -> str;
  repr : value -> str
}.

(** [str(e)] *)
Definition str_of_exn (py : interpreter) (e : exn) : str :=
  match e with
  | Builtin kind operand => errmsg py kind operand
  | Raised message => message
  end.

(** [f"{v}"]: a string is inserted as it is. *)
Definition format (py : interpreter) (v : value) : str :=
  match v with
  | VStr s => s
  | _ => repr py v
  end.

Fixpoint lookup (key : str) (entries : list (str * value)) : option value :=
  match entries with
  | [] => None
  | (k, v) :: rest => if str_eqb k key then Some v else lookup key rest
  end.

(** [bool(v)] *)
Definition truthy (v : value) : bool :=
  match v with
  | VNone => false
  | VBool b => b
  | VNum n => negb (n =? 0)%Z
  | VStr s => match s with [] => false | _ => true end
  | VList l => match l with [] => false | _ => true end
  | VDict d => match d with [] => false | _ => true end
  end.

Definition is_str (key : str) (v : value) : bool :=
  match v with
  | VStr s => str_eqb s key
  | _ => false
  end.

(** [key in v] for a string [key]. *)
Definition py_in (key : str) (v : value) : result bool :=
  match v with
  | VDict d => Ok (match lookup key d with Some _ => true | None => false end)
  | VList l => Ok (existsb (is_str key) l)
  | VStr s => Ok (contains key s)
  | _ => Raise (Builtin TypeError v)
  end.

(** [v[key]] for a string [key]. *)
Definition getitem (v : value) (key : str) : result value :=
  match v with
  | VDict d =>
      match lookup key d with
      | Some x => Ok x
      | None => Raise (Builtin KeyError v)
      end
  | _ => Raise (Builtin TypeError v)
  end.

(** [v[0]] *)
Definition first_item (v : value) : result value :=
  match v with
  | VList (x :: _) => Ok x
  | VList [] => Raise (Builtin IndexError v)
  | VStr (c :: _) => Ok (VStr [c])
  | VStr [] => Raise (Builtin IndexError v)
  | VDict _ => Raise (Builtin KeyError v)
  | _ => Raise (Builtin TypeError v)
  end.

(** [v[:n]].  Slicing a [dict] raises [TypeError] up to Python 3.11 and
    [KeyError] from 3.12 on; no handler here tells them apart. *)
Definition slice (v : value) (n : Z) : result value :=
  match v with
  | VStr s => Ok (VStr (slice_to n s))
  | VList l => Ok (VList (slice_to n l))
  | _ => Raise (Builtin TypeError v)
  end.

(** [v.get(key, default)] *)
Definition get (v : value) (key : str) (default : value) : result value :=
  match v with
  | VDict d =>
      Ok (match lookup key d with Some x => x | None => default end)
  | _ => Raise (Builtin AttributeError v)
  end.

(** [v.items()] *)
Definition items (v : value) : result (list (str * value)) :=
  match v with
  | VDict d => Ok d
  | _ => Raise (Builtin AttributeError v)
  end.

(** [v.replace(' ', '_')] *)
Definition replace_spaces (v : value) : result str :=
  match v with
  | VStr s => Ok (replace_char 32%N 95%N s)
  | _ => Raise (Builtin AttributeError v)
  end.

(** The items a [for] loop visits. *)
Definition iterate (v : value) : result (list value) :=
  match v with
  | VList l => Ok l
  | VStr s => Ok (map (fun c => VStr [c]) s)
  | VDict d => Ok (map (fun kv => VStr (fst kv)) d)
  | _ => Raise (Builtin TypeError v)
  end.

(** [len(v)] of a sized value, 0 for the others. *)
Definition len (v : value) : nat :=
  match v with
  | VStr s => length s
  | VList l => length l
  | VDict d => length d
  | _ => 0
  end.

(** A [try] whose handler returns a plain value: the whole never raises. *)
Definition catch (S A : Type) (body : io S A) (handler : exn -> A) (s : S)
  : A * S :=
  match body s with
  | (Ok a, s') => (a, s')
  | (Raise e, s') => (handler e, s')
  end.

End Py.

Declare Scope py_scope.
Delimit Scope py_scope with py.
Notation "x <- m ;; k" := (Py.bind m (fun x => k))
  (at level 61, m at next level, right associativity) : py_scope.
Notation "x <~ m ;; k" := (Py.bind_r m (fun x => k))
  (at level 61, m at next level, right associativity) : py_scope.

(** ** The research pipeline: [deep_research] *)

Module Research.
Import Py.
Local Open Scope py_scope.

(** One entry of [results["sources"]]. *)
Record source := {
  title : value;
  url : str;
  snippet : value
}.

(** The [results] dict once ["summary"] is set. *)
Record research_result := {
  query : str;
  sources : list source;
  summary : str
}.

(** [{"success": True, "data": ...}] or [{"success": False, "error": ...}] *)
Inductive outcome : Type :=
| Success (data : research_result)
| Failure (error : str).

(** The outside world of one run.  [clock k] is what the [k]-th call of
    [time.time()] returns, floating-point rounding left out;
    [search_get q n] is the decoded body of the search request for [q]
    with [srlimit = n], and [content_get k t] that of the content request
    for [titles = t] when [k] content requests went before; either raises
    when [requests.get] or [.json()] does.  The Streamlit calls
    ([st.spinner], [st.write]) only display and are left out. *)
Record world := {
  py : interpreter;
  clock : nat -> Q;
  search_get : str -> Z -> result value;
  content_get : nat -> value -> result value
}.

(** What a run did to the world: clock readings taken, search requests
    sent, and the titles of the content requests sent, oldest first. *)
Record effects := {
  ticks : nat;
  searches : nat;
  fetched : list value
}.

Definition untouched : effects :=
  {| ticks := 0; searches := 0; fetched := [] |}.

Definition time_time (w : world) : io effects Q :=
  fun e =>
    (Ok (clock w (ticks e)),
     {| ticks := S (ticks e); searches := searches e; fetched := fetched e |}).

Definition search_request (w : world) (q : str) (srlimit : Z)
  : io effects value :=
  fun e =>
    (search_get w q srlimit,
     {| ticks := ticks e; searches := S (searches e); fetched := fetched e |}).

Definition content_request (w : world) (titles : value) : io effects value :=
  fun e =>
    (content_get w (length (fetched e)) titles,
     {| ticks := ticks e; searches := searches e;
        fetched := fetched e ++ [titles] |}).

(** [now - start_time > time_limit] *)
Definition expired (start_time now : Q) (time_limit : Z) : bool :=
  negb (Qle_bool (now - start_time)%Q (inject_Z time_limit)).

(** [k1 in data and k2 in data[k1]] *)
Definition has_path (data : value) (k1 k2 : str) : result bool :=
  b <~ py_in k1 data ;;
  if b then (inner <~ getitem data k1 ;; py_in k2 inner) else Ok false.

(** The variables the fetch loop updates. *)
Record locals := {
  results_sources : list source;
  content_summary : list str;
  counter : nat
}.

Definition no_sources : locals :=
  {| results_sources := []; content_summary := []; counter := 1 |}.

Definition newlines : str := [10; 10]%N.

Definition wiki_prefix : str := lit "https://en.wikipedia.org/wiki/".

(** The display block of one accepted source. *)
Definition block (py : interpreter) (counter : nat) (title text : value)
  (url : str) : str :=
  str_of_nat counter ++ lit ". **" ++ format py title ++ lit "**" ++ newlines
  ++ format py text ++ newlines
  ++ [128279%N] ++ lit " Source: " ++ url ++ newlines
  ++ repeat 9472%N 80 ++ newlines.

(** The two appends and the increment of an accepted source. *)
Definition accept (py : interpreter) (title text : value) (url : str)
  (loc : locals) : locals :=
  {| results_sources :=
       results_sources loc
       ++ [{| title := title; url := url; snippet := text |}];
     content_summary :=
       content_summary loc ++ [block py (counter loc) title text url];
     counter := S (counter loc) |}.

(** [for page_id, page in ...items(): if "extract" in page: ... break] *)
Fixpoint scan_pages (py : interpreter) (title : value)
  (pages : list (str * value)) (loc : locals) : result locals :=
  match pages with
  | [] => Ok loc
  | (page_id, page) :: rest =>
      found <~ py_in (lit "extract") page ;;
      if found then
        extract <~ getitem page (lit "extract") ;;
        text <~ slice extract 1200 ;;
        underscored <~ replace_spaces title ;;
        Ok (accept py title text (wiki_prefix ++ underscored) loc)
      else scan_pages py title rest loc
  end.

(** What the loop does with a decoded content response. *)
Definition harvest (py : interpreter) (title content_data : value)
  (loc : locals) : result locals :=
  found <~ has_path content_data (lit "query") (lit "pages") ;;
  if found then
    q <~ getitem content_data (lit "query") ;;
    pages <~ getitem q (lit "pages") ;;
    entries <~ items pages ;;
    scan_pages py title entries loc
  else Ok loc.

(** The body of the inner [try]: nothing is appended before the last
    operation that can raise, so the handler resumes with the variables
    as they were. *)
Definition fetch_one (w : world) (title : value) (loc : locals)
  : io effects locals :=
  try_except
    (content_data <- content_request w title ;;
     lift (harvest (py w) title content_data loc))
    (fun _ => ret loc).

(** [for result in search_results[:max_urls]: ...] *)
Fixpoint fetch_loop (w : world) (start_time : Q) (time_limit : Z)
  (candidates : list value) (loc : locals) : io effects locals :=
  match candidates with
  | [] => ret loc
  | result :: rest =>
      now <- time_time w ;;
      if expired start_time now time_limit then ret loc
      else
        title <- lift (get result (lit "title") (VStr [])) ;;
        loc' <- fetch_one w title loc ;;
        fetch_loop w start_time time_limit rest loc'
  end.

(** After the loop: set ["summary"], fail when nothing was collected. *)
Definition finish (query : str) (loc : locals) : outcome :=
  match content_summary loc with
  | [] => Failure (lit "Could not retrieve any content")
  | _ =>
      Success {| query := query;
                 sources := results_sources loc;
                 summary := concat (content_summary loc) |}
  end.

Definition pipeline (w : world) (query : str) (time_limit max_urls : Z)
  (start_time : Q) : io effects outcome :=
  search_data <- search_request w query max_urls ;;
  found <- lift (has_path search_data (lit "query") (lit "search")) ;;
  if found then
    search_results <-
      lift (q <~ getitem search_data (lit "query") ;; getitem q (lit "search")) ;;
    if negb (truthy search_results) then
      ret (Failure (lit "No results found for '" ++ query ++ lit "'"))
    else
      capped <- lift (slice search_results max_urls) ;;
      candidates <- lift (iterate capped) ;;
      loc <- fetch_loop w start_time time_limit candidates no_sources ;;
      ret (finish query loc)
  else ret (Failure (lit "No search results found")).

(** [try: ... return {"success": True, ...}  except Exception as e: return
    {"success": False, "error": f"Research failed: {str(e)}"}].  The first
    clock reading is taken just before the [try]; it cannot raise. *)
Definition deep_research (w : world) (query : str)
  (max_depth time_limit max_urls : Z) : outcome * effects :=
  catch
    (start_time <- time_time w ;;
     pipeline w query time_limit max_urls start_time)
    (fun e => Failure (lit "Research failed: " ++ str_of_exn (py w) e))
    untouched.

End Research.

(** ** The summarizer: [call_llm] and [generate_summary] *)

Module Llm.
Import Py.
Local Open Scope py_scope.

(** The two keys of [st.session_state]; an empty string is "not set". *)
Record session_state := {
  openrouter_api_key : str;
  groq_api_key : str
}.

(** [{"role": ..., "content": ...}] *)
Record message := {
  role : str;
  content : str
}.

Inductive provider := OpenRouter | Groq.

(** What [requests.post] returns: the status, the text of the
    [HTTPError] that [raise_for_status] builds from it, and what
    [.json()] gives. *)
Record response := {
  status_code : Z;
  status_error : str;
  json : result value
}.

(** What the [groq] client returns: [choices_0_message] is the evaluation
    of [resp.choices[0].message], which raises or gives a message object
    ([Some c] when it has a [content] attribute of value [c], [None] when
    it has none); [as_str] is [str(resp)]. *)
Record completion := {
  choices_0_message : result (option value);
  as_str : str
}.

(** The two providers.  [groq_create] stands for [import groq], the
    client construction and [chat.completions.create]: it raises when any
    of them does. *)
Record providers := {
  py : interpreter;
  openrouter_post : str -> list message -> Q -> result response;
  groq_create : str -> list message -> Q -> result completion
}.

(** The log of provider calls, oldest first. *)
Definition calls := list provider.

Definition post (w : providers) (key : str) (messages : list message)
  (temperature : Q) : io calls response :=
  fun log => (openrouter_post w key messages temperature, log ++ [OpenRouter]).

Definition create (w : providers) (key : str) (messages : list message)
  (temperature : Q) : io calls completion :=
  fun log => (groq_create w key messages temperature, log ++ [Groq]).

(** [resp.raise_for_status()]: 4xx and 5xx raise. *)
Definition raise_for_status (resp : response) : result unit :=
  if ((400 <=? status_code resp) && (status_code resp <? 600))%Z
  then Raise (Raised (status_error resp))
  else Ok tt.

Definition configured (key : str) : bool :=
  match key with [] => false | _ => true end.

(** The body of the first [try]. *)
Definition openrouter_attempt (w : providers) (key : str)
  (messages : list message) (temperature : Q) : io calls value :=
  resp <- post w key messages temperature ;;
  _ <- lift (raise_for_status resp) ;;
  data <- lift (json resp) ;;
  lift (choices <~ getitem data (lit "choices") ;;
        choice <~ first_item choices ;;
        msg <~ getitem choice (lit "message") ;;
        getitem msg (lit "content")).

(** The body of the second [try]. *)
Definition groq_attempt (w : providers) (key : str)
  (messages : list message) (temperature : Q) : io calls value :=
  resp <- create w key messages temperature ;;
  msg <- lift (choices_0_message resp) ;;
  ret (match msg with
       | Some c => c
       | None => VStr (as_str resp)
       end).

Definition no_provider : str :=
  lit "No LLM provider available. Set OpenRouter or Groq key in the sidebar.".

(** [call_llm]: the first [try] either returns ([Some]) or, after the
    warning of its handler, falls out of the [if] ([None]). *)
Definition call_llm (w : providers) (st : session_state)
  (messages : list message) (temperature : Q) : io calls value :=
  early <-
    (if configured (openrouter_api_key st) then
       try_except
         (v <- openrouter_attempt w (openrouter_api_key st) messages
                 temperature ;;
          ret (Some v))
         (fun _ => ret None)
     else ret None) ;;
  match early with
  | Some v => ret v
  | None =>
      if configured (groq_api_key st) then
        try_except
          (groq_attempt w (groq_api_key st) messages temperature)
          (fun e =>
             raise (Raised (lit "Groq call failed: " ++ str_of_exn (py w) e)))
      else raise (Raised no_provider)
  end.

(** [f"- {s['title']}: {s['snippet'][:200]}"] *)
Definition source_line (py : interpreter) (s : Research.source)
  : result str :=
  head <~ slice (Research.snippet s) 200 ;;
  Ok (lit "- " ++ format py (Research.title s) ++ lit ": " ++ format py head).

Fixpoint source_lines (py : interpreter) (l : list Research.source)
  : result (list str) :=
  match l with
  | [] => Ok []
  | s :: rest =>
      line <~ source_line py s ;;
      lines <~ source_lines py rest ;;
      Ok (line :: lines)
  end.

(** [sep.join(parts)] *)
Fixpoint join (sep : str) (parts : list str) : str :=
  match parts with
  | [] => []
  | [p] => p
  | p :: rest => p ++ sep ++ join sep rest
  end.

Definition system_prompt : str :=
  lit "You are a research expert. Provide a concise, well-structured summary of the research findings in 2-3 paragraphs.".

Definition user_prompt (query sources_text : str) : str :=
  lit "Topic: " ++ query ++ Research.newlines ++ lit "Sources:" ++ [10%N]
  ++ sources_text ++ Research.newlines
  ++ lit "Please summarize the key findings.".

Definition unavailable : str :=
  lit "AI summary unavailable - set API key in configuration".

(** The prompt: at most five sources, 200 characters of each snippet. *)
Definition build_messages (py : interpreter)
  (research_data : Research.research_result) (query : str)
  : result (list message) :=
  lines <~ source_lines py (slice_to 5 (Research.sources research_data)) ;;
  let sources_text := join [10%N] lines in
  Ok [ {| role := lit "system"; content := system_prompt |};
       {| role := lit "user"; content := user_prompt query sources_text |} ].

(** The body of the [try] of [generate_summary]. *)
Definition summary_attempt (w : providers) (st : session_state)
  (research_data : Research.research_result) (query : str)
  : io calls value :=
  messages <- lift (build_messages (py w) research_data query) ;;
  call_llm w st messages (7 # 10)%Q.

Definition generate_summary (w : providers) (st : session_state)
  (research_data : Research.research_result) (query : str)
  : io calls value :=
  if negb (configured (openrouter_api_key st) || configured (groq_api_key st))
  then ret (VStr unavailable)
  else
    try_except
      (summary_attempt w st research_data query)
      (fun e =>
         ret (VStr (lit "Summary generation failed: " ++ str_of_exn (py w) e))).

End Llm.

(** ** Vocabulary of the properties *)

Module Terms.
Import Py Research.

(** [l] is an initial segment of [l'], and a proper one. *)
Definition prefix (A : Type) (l l' : list A) : Prop :=
  exists rest, l' = l ++ rest.

Definition strict_prefix (A : Type) (l l' : list A) : Prop :=
  exists x rest, l' = l ++ x :: rest.

(** The sources a caller gets: those of the result, none on failure. *)
Definition delivered (out : outcome) : list source :=
  match out with
  | Success data => sources data
  | Failure _ => []
  end.

(** The same world with another clock. *)
Definition with_clock (w : world) (c : nat -> Q) : world :=
  {| py := py w; clock := c;
     search_get := search_get w; content_get := content_get w |}.

(** The loop guard of iteration [i] compares the first clock reading
    with reading [i + 1]. *)
Definition guard_fires (w : world) (time_limit : Z) (i : nat) : bool :=
  expired (clock w 0) (clock w (S i)) time_limit.

(** A clock under which the deadline never elapses. *)
Definition never_expires (c : nat -> Q) (time_limit : Z) : Prop :=
  forall k, expired (c 0) (c k) time_limit = false.

(** [extract] is the ["extract"] of one of the pages of a decoded content
    response. *)
Definition offers_extract (content_data extract : value) : Prop :=
  exists q pages entries page_id page,
    getitem content_data (lit "query") = Ok q /\
    getitem q (lit "pages") = Ok pages /\
    items pages = Ok entries /\
    In (page_id, page) entries /\
    getitem page (lit "extract") = Ok extract.

(** The candidates the loop visits: the first [max_urls] search hits. *)
Definition candidates_of (search_data : value) (max_urls : Z)
  : result (list value) :=
  (q <~ getitem search_data (lit "query") ;;
   search_results <~ getitem q (lit "search") ;;
   capped <~ slice search_results max_urls ;;
   iterate capped)%py.

(** Whether a content reply makes the loop accept a source for [title]. *)
Definition yields_source (py : interpreter) (title : value)
  (reply : result value) : bool :=
  match reply with
  | Ok content_data =>
      match harvest py title content_data no_sources with
      | Ok loc => match results_sources loc with [] => false | _ => true end
      | Raise _ => false
      end
  | Raise _ => false
  end.

(** What one accepted source is made of. *)
Definition made_from (title content_data : value) (s : source) : Prop :=
  exists extract t,
    offers_extract content_data extract /\
    slice extract 1200 = Ok (snippet s) /\
    title = VStr t /\
    Research.title s = title /\
    url s = wiki_prefix ++ replace_char 32%N 95%N t.

(** [loc'] is [loc] after accepting [s]. *)
Definition extends_by (py : interpreter) (loc loc' : locals) (s : source)
  : Prop :=
  loc' = accept py (title s) (snippet s) (url s) loc.

(** [s] was accepted for the title of one of the [candidates], from a
    content reply to a request for that title. *)
Definition picked (w : world) (candidates : list value) (s : source) : Prop :=
  exists result k content_data,
    In result candidates /\
    get result (lit "title") (VStr []) = Ok (title s) /\
    content_get w k (title s) = Ok content_data /\
    made_from (title s) content_data s.

(** The log when the fetch loop is entered: one clock reading and the
    search request. *)
Definition loop_start : effects :=
  {| ticks := 1; searches := 1; fetched := [] |}.

(** How a run ends once the loop has given its variables or raised. *)
Definition conclude (py : interpreter) (query : str) (r : result locals)
  : outcome :=
  match r with
  | Ok loc => finish query loc
  | Raise x => Failure (lit "Research failed: " ++ str_of_exn py x)
  end.

(** The variables after the inner [try] of one iteration, given the
    reply to its content request. *)
Definition after_reply (py : interpreter) (title : value) (loc : locals)
  (reply : result value) : locals :=
  match reply with
  | Ok content_data =>
      match harvest py title content_data loc with
      | Ok loc' => loc'
      | Raise _ => loc
      end
  | Raise _ => loc
  end.

(** The record of an accepted source. *)
Definition record (title text : value) (t : str) : source :=
  {| title := title;
     url := wiki_prefix ++ replace_char 32%N 95%N t;
     snippet := text |}.

(** Every content fetch fails: the request for the title of the hit at
    position [i], sent as the [i]-th content request, yields no source. *)
Definition every_fetch_barren (w : world) (offset : nat) (hits : list value)
  : Prop :=
  forall i hit title,
    nth_error hits i = Some hit ->
    get hit (lit "title") (VStr []) = Ok title ->
    yields_source (py w) title (content_get w (offset + i) title) = false.

(** Two worlds that answer alike: same clock readings, same HTTP
    responses, same interpreter. *)
Definition same_responses (w w' : world) : Prop :=
  (forall k, clock w k = clock w' k) /\
  (forall q n, search_get w q n = search_get w' q n) /\
  (forall k t, content_get w k t = content_get w' k t) /\
  (forall kind v, errmsg (py w) kind v = errmsg (py w') kind v) /\
  (forall v, repr (py w) v = repr (py w') v).

Definition is_dict (v : value) : bool :=
  match v with
  | VDict _ => true
  | _ => false
  end.

End Terms.

(** ** Sample worlds *)

Module Samples.
Import Py Research.
Local Open Scope string_scope.
Local Open Scope list_scope.

Definition quiet : interpreter :=
  {| errmsg := fun _ _ => lit "error"; repr := fun _ => lit "<value>" |}.

(** [{"query": {"search": [{"title": t}, ...]}}] *)
Definition hit (t : string) : value := VDict [(lit "title", VStr (lit t))].

Definition search_reply (titles : list string) : value :=
  VDict [(lit "query", VDict [(lit "search", VList (map hit titles))])].

(** [{"query": {"pages": {id: page, ...}}}] *)
Definition content_reply (pages : list (str * value)) : value :=
  VDict [(lit "query", VDict [(lit "pages", VDict pages)])].

Definition page_with (extract : string) : value :=
  VDict [(lit "extract", VStr (lit extract))].

Definition page_without : value := VDict [(lit "missing", VStr [])].

(** A clock that advances one second per reading. *)
Definition one_second_per_reading (k : nat) : Q := inject_Z (Z.of_nat k).

(** Search for "Turing" gives two hits and both content fetches succeed. *)
Definition turing : world :=
  {| py := quiet;
     clock := one_second_per_reading;
     search_get := fun _ _ => Ok (search_reply ["Alan Turing"; "Turing Award"]);
     content_get := fun _ _ =>
       Ok (content_reply [(lit "1208", page_with "English mathematician")]) |}.

(** Search finds nothing. *)
Definition nothing_found : world :=
  {| py := quiet;
     clock := one_second_per_reading;
     search_get := fun _ _ => Ok (search_reply []);
     content_get := fun _ _ => Raise (Raised (lit "unreachable")) |}.

(** One hit, and its content request times out. *)
Definition every_fetch_fails : world :=
  {| py := quiet;
     clock := one_second_per_reading;
     search_get := fun _ _ => Ok (search_reply ["Alan Turing"]);
     content_get := fun _ _ => Raise (Raised (lit "Read timed out.")) |}.

(** Two page ids for one title: the first has an empty extract. *)
Definition two_pages : list (str * value) :=
  [(lit "11", page_with ""); (lit "12", page_with "text")].

(** Two hits; the second has no extract.  The clock jumps past any
    deadline between the first and the second iteration. *)
Definition late_second_guard (k : nat) : Q :=
  match k with
  | 0 | 1 => inject_Z 0
  | _ => inject_Z 1000
  end.

Definition standing_clock (k : nat) : Q := inject_Z 0.

Definition second_is_barren : world :=
  {| py := quiet;
     clock := late_second_guard;
     search_get := fun _ _ => Ok (search_reply ["Alan Turing"; "Turing Award"]);
     content_get := fun k _ =>
       match k with
       | 0 => Ok (content_reply [(lit "1208", page_with "English mathematician")])
       | _ => Ok (content_reply [(lit "-1", page_without)])
       end |}.

(** The result of the "Turing" run, cut to what the prompt reads. *)
Definition turing_data : research_result :=
  {| query := lit "Turing";
     sources :=
       [{| title := VStr (lit "Alan Turing");
           url := lit "https://en.wikipedia.org/wiki/Alan_Turing";
           snippet := VStr (lit "English mathematician") |}];
     summary := [] |}.

Definition both_keys : Llm.session_state :=
  {| Llm.openrouter_api_key := lit "sk-or-1";
     Llm.groq_api_key := lit "gsk-1" |}.

(** [{"choices": [{"message": {"content": c}}]}] with status 200. *)
Definition chat_completion (c : value) : Llm.response :=
  {| Llm.status_code := 200;
     Llm.status_error := [];
     Llm.json :=
       Ok (VDict [(lit "choices",
                   VList [VDict [(lit "message",
                                  VDict [(lit "content", c)])]])]) |}.

Definition unavailable_503 : Llm.response :=
  {| Llm.status_code := 503;
     Llm.status_error := lit "503 Server Error: Service Unavailable";
     Llm.json := Raise (Raised (lit "Expecting value")) |}.

(** The primary answers 503, the secondary answers. *)
Definition primary_down : Llm.providers :=
  {| Llm.py := quiet;
     Llm.openrouter_post := fun _ _ _ => Ok unavailable_503;
     Llm.groq_create := fun _ _ _ =>
       Ok {| Llm.choices_0_message := Ok (Some (VStr (lit "A summary.")));
             Llm.as_str := lit "ChatCompletion(...)" |} |}.

(** The primary answers 200 with ["content": null]. *)
Definition null_content : Llm.providers :=
  {| Llm.py := quiet;
     Llm.openrouter_post := fun _ _ _ => Ok (chat_completion VNone);
     Llm.groq_create := fun _ _ _ => Raise (Raised (lit "unreachable")) |}.

End Samples.

(** ** Three claims in the specification's own words *)

Module Stated.
Import Py Research Terms Samples.
Local Open Scope string_scope.
Local Open Scope list_scope.

(** "the first page id with a non-empty extract" *)
Fixpoint first_nonempty_extract (pages : list (str * value)) : option str :=
  match pages with
  | [] => None
  | (_, page) :: rest =>
      match getitem page (lit "extract") with
      | Ok (VStr (c :: text)) => Some (c :: text)
      | _ => first_nonempty_extract rest
      end
  end.

(** "exactly one SourceRecord is produced for that title, taken from the
    first page id with a non-empty extract" *)
Definition keeps_first_nonempty_extract : Prop :=
  forall py t pages text loc,
    2 <= length pages ->
    first_nonempty_extract pages = Some text ->
    harvest py (VStr t) (content_reply pages) loc =
      Ok (accept py (VStr t) (VStr (firstn 1200 text))
            (wiki_prefix ++ replace_char 32%N 95%N t) loc).

(** "returns Failure with the reason could not retrieve any content,
    having issued up to N content-fetch calls", the reason in lower
    case as the specification quotes it *)
Definition fails_with_lowercase_reason : Prop :=
  forall w query max_depth time_limit max_urls search_data q hits,
    (0 <= max_urls)%Z ->
    search_get w query max_urls = Ok search_data ->
    getitem search_data (lit "query") = Ok q ->
    getitem q (lit "search") = Ok (VList hits) ->
    hits <> [] ->
    Forall (fun h => is_dict h = true) hits ->
    every_fetch_barren w 0 hits ->
    exists eff,
      deep_research w query max_depth time_limit max_urls =
        (Failure (lit "could not retrieve any content"), eff) /\
      (Z.of_nat (length (fetched eff)) <= max_urls)%Z.

(** "the deadline elapses mid-loop": the guard fires at an iteration that
    still has a candidate. *)
Definition elapses_mid_loop (w : world) (query : str)
  (time_limit max_urls : Z) : Prop :=
  exists search_data candidates i,
    search_get w query max_urls = Ok search_data /\
    candidates_of search_data max_urls = Ok candidates /\
    i < length candidates /\
    guard_fires w time_limit i = true.

(** "the returned sources is a strict prefix of what a deadline-free run
    would have produced" *)
Definition cut_short_is_strict_prefix : Prop :=
  forall w c' query max_depth time_limit max_urls data eff data' eff',
    never_expires c' time_limit ->
    elapses_mid_loop w query time_limit max_urls ->
    deep_research w query max_depth time_limit max_urls
      = (Success data, eff) ->
    deep_research (with_clock w c') query max_depth time_limit max_urls
      = (Success data', eff') ->
    strict_prefix (sources data) (sources data').

End Stated.

(** ** Further vocabulary: rendering, order, complete fetches *)

Module More.
Import Py Research Terms.

(** The display blocks of a list of sources, numbered from [n]. *)
Fixpoint blocks (py : interpreter) (n : nat) (l : list source) : list str :=
  match l with
  | [] => []
  | s :: rest => block py n (title s) (snippet s) (url s) :: blocks py (S n) rest
  end.

(** [l] is [m] with some items left out, the order kept. *)
Inductive subseq (A : Type) : list A -> list A -> Prop :=
| subseq_nil : subseq [] []
| subseq_skip x l m : subseq l m -> subseq l (x :: m)
| subseq_take x l m : subseq l m -> subseq (x :: l) (x :: m).

(** Every content fetch succeeds: the request for the title of the hit
    at position [i], sent as the [i]-th content request, yields a
    source. *)
Definition every_fetch_yields (w : world) (offset : nat) (hits : list value)
  : Prop :=
  forall i hit title,
    nth_error hits i = Some hit ->
    get hit (lit "title") (VStr []) = Ok title ->
    yields_source (py w) title (content_get w (offset + i) title) = true.

(** The failure of the outer handler. *)
Definition research_failed (py : interpreter) (x : exn) : outcome :=
  Failure (lit "Research failed: " ++ str_of_exn py x).

(** [t] is the title the loop reads from the search hit [hit]. *)
Definition title_of (hit t : value) : Prop :=
  get hit (lit "title") (VStr []) = Ok t.

End More.

(** ** Further vocabulary: what a provider's reply gives *)

Module Replies.
Import Py Research Llm.
Local Open Scope py_scope.

(** What the first [try] of [call_llm] makes of the reply to its POST. *)
Definition openrouter_value (reply : result response) : result value :=
  resp <~ reply ;;
  _ <~ raise_for_status resp ;;
  data <~ json resp ;;
  choices <~ getitem data (lit "choices") ;;
  choice <~ first_item choices ;;
  msg <~ getitem choice (lit "message") ;;
  getitem msg (lit "content").

(** What the second [try] makes of the reply of the [groq] client. *)
Definition groq_value (reply : result completion) : result value :=
  resp <~ reply ;;
  msg <~ choices_0_message resp ;;
  Ok (match msg with
      | Some c => c
      | None => VStr (as_str resp)
      end).

(** A source as the prompt reads it: the snippet cut to its [[:200]]
    slice. *)
Definition cut_source (s : source) : source :=
  match slice (snippet s) 200 with
  | Ok head => {| title := title s; url := url s; snippet := head |}
  | Raise _ => s
  end.

(** A result as the prompt reads it: the first five sources, cut; the
    query and the summary are not read. *)
Definition cut (research_data : research_result) : research_result :=
  {| query := [];
     sources := map cut_source (slice_to 5 (sources research_data));
     summary := [] |}.

(** The text of the fallback the summarizer shows for an exception. *)
Definition generation_failed (py : interpreter) (e : exn) : value :=
  VStr (lit "Summary generation failed: " ++ str_of_exn py e).

End Replies.

(** ** The report exports: [download_report] and the text download *)

Module Reports.
Import Py.

(** [s.replace(old, new)] for a non-empty [old]: the occurrences of [old]
    are taken from the left and do not overlap.  At a match [new] is
    emitted and the rest of the match, [skip] characters, is passed
    over. *)
Fixpoint replace_from (old new : str) (skip : nat) (s : str) : str :=
  match s with
  | [] => []
  | c :: rest =>
      match skip with
      | S k => replace_from old new k rest
      | 0 =>
          if starts_with old s
          then new ++ replace_from old new (length old - 1) rest
          else c :: replace_from old new 0 rest
      end
  end.

(** [s.replace(old, new)]; an empty [old] matches before every character
    and at the end. *)
Definition replace (old new s : str) : str :=
  match old with
  | [] => new ++ flat_map (fun c => c :: new) s
  | _ => replace_from old new 0 s
  end.

Definition link_emoji : char := 128279%N.
Definition book_emoji : char := 128214%N.

(** [download_report]; [filename] is not read. *)
Definition download_report (content format_type filename : str) : str :=
  if str_eqb format_type (lit "markdown") then content
  else if str_eqb format_type (lit "text") then
    replace [book_emoji] []
      (replace [link_emoji] [] (replace (lit "**") [] content))
  else if str_eqb format_type (lit "html") then
    lit "<html><body><pre>" ++ content ++ lit "</pre></body></html>"
  else content.

(** The data of the "Text" download button:
    [report_content.replace("**", "").replace("###", "")]. *)
Definition text_download (report_content : str) : str :=
  replace (lit "###") [] (replace (lit "**") [] report_content).

(** The number of leading [c] of [s]. *)
Fixpoint lead (c : char) (s : str) : nat :=
  match s with
  | [] => 0
  | x :: rest => if N.eqb x c then S (lead c rest) else 0
  end.

End Reports.

(** ** The script around the pipeline: buttons and session state *)

Module Session.
Import Py Research.

(** One run of the script: the button pressed, if any, with the values
    of the topic field and of the three sliders. *)
Inductive interaction : Type :=
| ClearClicked
| SearchClicked (topic : str) (max_depth time_limit max_urls : Z)
| NoButton.

(** What one run of the script does to
    [st.session_state.research_results], [None] or the data of a run:
    "Clear" empties it; "Start Research" with an empty topic only shows
    an error; otherwise the pipeline runs and its data is stored on
    success, while a failure only shows an error. *)
Definition rerun (w : world) (i : interaction)
  (research_results : option research_result) : option research_result :=
  match i with
  | ClearClicked => None
  | SearchClicked topic max_depth time_limit max_urls =>
      match topic with
      | [] => research_results
      | _ =>
          match fst (deep_research w topic max_depth time_limit max_urls) with
          | Success data => Some data
          | Failure _ => research_results
          end
      end
  | NoButton => research_results
  end.

(** A session: runs of the script, each in the world of its moment,
    starting from the state the script initialises. *)
Fixpoint session (history : list (world * interaction))
  (research_results : option research_result) : option research_result :=
  match history with
  | [] => research_results
  | (w, i) :: later => session later (rerun w i research_results)
  end.

(** The sliders allow 1 to 20 sources. *)
Definition within_sliders (i : interaction) : Prop :=
  match i with
  | SearchClicked _ _ _ max_urls => (1 <= max_urls <= 20)%Z
  | _ => True
  end.

(** Stored results worth showing: a topic and 1 to 20 sources. *)
Definition presentable (research_results : option research_result) : Prop :=
  match research_results with
  | None => True
  | Some data => query data <> [] /\ 1 <= length (sources data) <= 20
  end.

End Session.

(** ** More sample worlds *)

Module MoreSamples.
Import Py Research Samples.
Local Open Scope string_scope.
Local Open Scope list_scope.

(** The search request times out. *)
Definition search_times_out : world :=
  {| py := quiet;
     clock := one_second_per_reading;
     search_get := fun _ _ => Raise (Raised (lit "Read timed out."));
     content_get := fun _ _ => Raise (Raised (lit "unreachable")) |}.

(** The API answers the search with an error object. *)
Definition api_error : world :=
  {| py := quiet;
     clock := one_second_per_reading;
     search_get := fun _ _ =>
       Ok (VDict [(lit "error", VDict [(lit "code", VStr (lit "badvalue"))])]);
     content_get := fun _ _ => Raise (Raised (lit "unreachable")) |}.

(** The search alone takes longer than any time limit. *)
Definition slow_search (k : nat) : Q :=
  match k with
  | 0 => inject_Z 0
  | _ => inject_Z 1000
  end.

Definition turing_after_slow_search : world :=
  {| py := quiet;
     clock := slow_search;
     search_get := search_get turing;
     content_get := content_get turing |}.

(** The second search hit is a number instead of an object. *)
Definition second_hit_malformed : world :=
  {| py := quiet;
     clock := standing_clock;
     search_get := fun _ _ =>
       Ok (VDict [(lit "query",
                   VDict [(lit "search",
                           VList [hit "Alan Turing"; VNum 7])])]);
     content_get := content_get turing |}.

(** Both providers are down. *)
Definition both_down : Llm.providers :=
  {| Llm.py := quiet;
     Llm.openrouter_post := fun _ _ _ => Ok unavailable_503;
     Llm.groq_create := fun _ _ _ =>
       Raise (Raised (lit "Connection error.")) |}.

(** The primary answers. *)
Definition primary_up : Llm.providers :=
  {| Llm.py := quiet;
     Llm.openrouter_post := fun _ _ _ =>
       Ok (chat_completion (VStr (lit "A summary.")));
     Llm.groq_create := fun _ _ _ =>
       Raise (Raised (lit "Connection error.")) |}.

Definition no_keys : Llm.session_state :=
  {| Llm.openrouter_api_key := []; Llm.groq_api_key := [] |}.

Definition primary_key_only : Llm.session_state :=
  {| Llm.openrouter_api_key := lit "sk-or-1"; Llm.groq_api_key := [] |}.

End MoreSamples.

(** * Properties *)

(** ** Python values *)

Module PyFacts.
Import Py.

Lemma slice_to_length (A : Type) (n : Z) (l : list A) :
  (0 <= n)%Z -> length (slice_to n l) <= Z.to_nat n.
Proof.
  intros Hn. unfold slice_to.
  destruct (0 <=? n)%Z eqn:E; [apply firstn_le_length | lia].
Qed.

Lemma slice_len v n v' :
  (0 <= n)%Z -> slice v n = Ok v' -> len v' <= Z.to_nat n.
Proof.
  intros Hn H. destruct v; simpl in H; try discriminate;
    inversion H; subst; simpl; now apply slice_to_length.
Qed.

Lemma iterate_slice_length v n capped candidates :
  (0 <= n)%Z -> slice v n = Ok capped -> iterate capped = Ok candidates ->
  length candidates <= Z.to_nat n.
Proof.
  intros Hn Hs Hi.
  destruct v; simpl in Hs; try discriminate; inversion Hs; subst;
    simpl in Hi; inversion Hi; subst; rewrite ?length_map;
    now apply slice_to_length.
Qed.

Lemma getitem_in v key x : getitem v key = Ok x -> py_in key v = Ok true.
Proof.
  destruct v; simpl; try discriminate.
  destruct (lookup key entries); [reflexivity | discriminate].
Qed.

End PyFacts.
(** ** The fetch loop *)

Module ResearchFacts.
Import Py Research Terms PyFacts.

Lemma scan_pages_spec py title pages loc loc' :
  scan_pages py title pages loc = Ok loc' ->
  loc' = loc \/
  exists page_id page extract t s,
    In (page_id, page) pages /\
    getitem page (lit "extract") = Ok extract /\
    slice extract 1200 = Ok (snippet s) /\
    title = VStr t /\ Research.title s = title /\
    url s = wiki_prefix ++ replace_char 32%N 95%N t /\
    extends_by py loc loc' s.
Proof.
  induction pages as [|[page_id page] rest IH]; simpl; intros H.
  - left. congruence.
  - destruct (py_in (lit "extract") page) as [[|]|] eqn:Hin; simpl in H;
      try discriminate.
    + destruct (getitem page (lit "extract")) as [extract|] eqn:Hg;
        simpl in H; try discriminate.
      destruct (slice extract 1200) as [text|] eqn:Hs; simpl in H;
        try discriminate.
      destruct title as [| | |t| |]; simpl in H; try discriminate.
      inversion H; subst. right.
      exists page_id, page, extract, t,
        {| title := VStr t;
           url := wiki_prefix ++ replace_char 32%N 95%N t;
           snippet := text |}.
      simpl. repeat split; auto.
    + destruct (IH H) as [->|(pid & pg & ex & t & s & Hi & rest')];
        [now left|].
      right. exists pid, pg, ex, t, s. split; [now right | exact rest'].
Qed.

Lemma harvest_spec py title content_data loc loc' :
  harvest py title content_data loc = Ok loc' ->
  loc' = loc \/
  exists s, made_from title content_data s /\ extends_by py loc loc' s.
Proof.
  unfold harvest. intros H.
  destruct (has_path content_data (lit "query") (lit "pages")) as [[|]|];
    simpl in H; try discriminate; [|left; congruence].
  destruct (getitem content_data (lit "query")) as [q|] eqn:Hq; simpl in H;
    try discriminate.
  destruct (getitem q (lit "pages")) as [pages|] eqn:Hp; simpl in H;
    try discriminate.
  destruct (items pages) as [entries|] eqn:Hi; simpl in H; try discriminate.
  apply scan_pages_spec in H.
  destruct H as [->|(pid & pg & ex & t & s & Hin & Hg & Hs & Ht & Hts & Hu & He)];
    [now left|].
  right. exists s. split; [|exact He].
  exists ex, t. repeat split; auto.
  exists q, pages, entries, pid, pg. auto.
Qed.

(** Which page is taken does not depend on what was collected before. *)
Lemma scan_pages_uniform py title pages loc :
  scan_pages py title pages loc =
  match scan_pages py title pages no_sources with
  | Ok found =>
      Ok (match results_sources found with
          | [] => loc
          | s :: _ => accept py (Research.title s) (snippet s) (url s) loc
          end)
  | Raise x => Raise x
  end.
Proof.
  induction pages as [|[page_id page] rest IH]; simpl; [reflexivity|].
  destruct (py_in (lit "extract") page) as [[|]|]; simpl; auto.
  destruct (getitem page (lit "extract")) as [extract|]; simpl; auto.
  destruct (slice extract 1200) as [text|]; simpl; auto.
  destruct (replace_spaces title); simpl; auto.
Qed.

Lemma harvest_uniform py title content_data loc :
  harvest py title content_data loc =
  match harvest py title content_data no_sources with
  | Ok found =>
      Ok (match results_sources found with
          | [] => loc
          | s :: _ => accept py (Research.title s) (snippet s) (url s) loc
          end)
  | Raise x => Raise x
  end.
Proof.
  unfold harvest.
  destruct (has_path content_data (lit "query") (lit "pages")) as [[|]|];
    simpl; auto.
  destruct (getitem content_data (lit "query")) as [q|]; simpl; auto.
  destruct (getitem q (lit "pages")) as [pages|]; simpl; auto.
  destruct (items pages) as [entries|]; simpl; auto.
  apply scan_pages_uniform.
Qed.

(** Pages without an ["extract"] are stepped over; the first page with
    one ends the scan. *)
Lemma scan_pages_first py t before page_id page after extract text loc :
  Forall (fun p => py_in (lit "extract") (snd p) = Ok false) before ->
  getitem page (lit "extract") = Ok extract ->
  slice extract 1200 = Ok text ->
  scan_pages py (VStr t) (before ++ (page_id, page) :: after) loc =
    Ok (accept py (VStr t) text (wiki_prefix ++ replace_char 32%N 95%N t) loc).
Proof.
  intros Hbefore Hextract Hslice.
  induction before as [|[pid p] before IH]; simpl.
  - rewrite (getitem_in _ _ Hextract). simpl.
    rewrite Hextract. simpl. rewrite Hslice. reflexivity.
  - inversion Hbefore as [|? ? Hp Hrest]; subst. simpl in Hp.
    rewrite Hp. simpl. now apply IH.
Qed.

(** The inner [try] as a function of the reply. *)
Lemma fetch_one_eq w title loc e :
  fetch_one w title loc e =
    (Ok (after_reply (py w) title loc
           (content_get w (length (fetched e)) title)),
     {| ticks := ticks e; searches := searches e;
        fetched := fetched e ++ [title] |}).
Proof.
  unfold fetch_one, try_except, bind, content_request, lift, ret, after_reply.
  destruct (content_get w (length (fetched e)) title) as [data|];
    [|reflexivity].
  destruct (harvest (py w) title data loc); reflexivity.
Qed.

(** After one reply the variables are as before, or one source made
    from that reply was accepted. *)
Lemma after_reply_spec py title loc reply :
  after_reply py title loc reply = loc \/
  exists content_data s,
    reply = Ok content_data /\
    made_from title content_data s /\
    extends_by py loc (after_reply py title loc reply) s.
Proof.
  unfold after_reply. destruct reply as [data|]; [|now left].
  destruct (harvest py title data loc) as [loc'|] eqn:H; [|now left].
  destruct (harvest_spec _ _ _ _ H) as [->|(s & Hmade & Hext)]; [now left|].
  right. exists data, s. auto.
Qed.

Lemma after_reply_barren py title loc reply :
  yields_source py title reply = false -> after_reply py title loc reply = loc.
Proof.
  unfold yields_source, after_reply. destruct reply as [data|]; [|reflexivity].
  rewrite (harvest_uniform py title data loc).
  destruct (harvest py title data no_sources) as [found|]; [|reflexivity].
  destruct (results_sources found); [reflexivity | discriminate].
Qed.

(** One turn of the loop, spelled out. *)
Lemma fetch_loop_cons w start_time time_limit hit rest loc e :
  fetch_loop w start_time time_limit (hit :: rest) loc e =
  let read :=
    {| ticks := S (ticks e); searches := searches e; fetched := fetched e |} in
  if expired start_time (clock w (ticks e)) time_limit then (Ok loc, read)
  else
    match get hit (lit "title") (VStr []) with
    | Ok title =>
        fetch_loop w start_time time_limit rest
          (after_reply (py w) title loc
             (content_get w (length (fetched e)) title))
          {| ticks := S (ticks e); searches := searches e;
             fetched := fetched e ++ [title] |}
    | Raise x => (Raise x, read)
    end.
Proof.
  cbn [fetch_loop]. unfold bind at 1. unfold time_time. cbv zeta.
  destruct (expired start_time (clock w (ticks e)) time_limit);
    [reflexivity|].
  unfold bind at 1. unfold lift at 1.
  destruct (get hit (lit "title") (VStr [])) as [title|]; [|reflexivity].
  unfold bind at 1. now rewrite fetch_one_eq.
Qed.

Lemma picked_more w result rest s :
  picked w rest s -> picked w (result :: rest) s.
Proof.
  intros (r & k & d & Hin & H). exists r, k, d. split; [now right | exact H].
Qed.

(** The loop only appends: at most one source, and exactly one request,
    per candidate visited. *)
Lemma fetch_loop_spec w start_time time_limit candidates :
  forall loc e r e',
    fetch_loop w start_time time_limit candidates loc e = (r, e') ->
    (exists more,
       fetched e' = fetched e ++ more /\ length more <= length candidates) /\
    match r with
    | Ok loc' =>
        exists new,
          results_sources loc' = results_sources loc ++ new /\
          length (content_summary loc') =
            length (content_summary loc) + length new /\
          length new <= length candidates /\
          Forall (picked w candidates) new
    | Raise _ => True
    end.
Proof.
  induction candidates as [|hit rest IH]; intros loc e r e' H.
  - inversion H; subst. split.
    + exists []. now rewrite app_nil_r.
    + exists []. rewrite app_nil_r. simpl. auto.
  - rewrite fetch_loop_cons in H. cbv zeta in H.
    destruct (expired start_time (clock w (ticks e)) time_limit).
    { inversion H; subst. split.
      - exists []. simpl. rewrite app_nil_r. split; [reflexivity | lia].
      - exists []. rewrite app_nil_r. simpl. repeat split; auto. lia. }
    destruct (get hit (lit "title") (VStr [])) as [title|x] eqn:Hget.
    2: { inversion H; subst. simpl. split; [|exact I].
         exists []. rewrite app_nil_r. split; [reflexivity | simpl; lia]. }
    apply IH in H. cbn [fetched] in H.
    destruct H as [(more & Hmore & Hlen) Hr]. split.
    { exists (title :: more). rewrite Hmore, <- app_assoc.
      split; [reflexivity | simpl; lia]. }
    destruct r as [loc'|]; [|exact I].
    destruct Hr as (new & Hsrc & Hsum & Hnew & Hall).
    assert (Hall' : Forall (picked w (hit :: rest)) new)
      by (eapply Forall_impl; [|exact Hall]; intros; now apply picked_more).
    destruct (after_reply_spec (py w) title loc
                (content_get w (length (fetched e)) title))
      as [Hsame|(data & s & Hreply & Hmade & Hext)].
    + rewrite Hsame in Hsrc, Hsum.
      exists new. repeat split; simpl; auto; lia.
    + red in Hext. rewrite Hext in Hsrc, Hsum. cbn [accept results_sources
        content_summary] in Hsrc, Hsum.
      rewrite <- app_assoc in Hsrc. rewrite length_app in Hsum.
      exists (s :: new). repeat split; simpl in *; try lia.
      * destruct s; exact Hsrc.
      * constructor; [|exact Hall'].
        pose proof Hmade as (_ & _ & _ & _ & _ & Htitle & _).
        exists hit, (length (fetched e)), data.
        rewrite Htitle. repeat split; auto. now left.
Qed.

Lemma every_fetch_barren_tail w offset hit rest :
  every_fetch_barren w offset (hit :: rest) ->
  every_fetch_barren w (S offset) rest.
Proof.
  intros H i h title Hnth Hget.
  replace (S offset + i) with (offset + S i) by lia.
  now apply (H (S i) h title).
Qed.

Lemma every_fetch_barren_slice w hits n :
  every_fetch_barren w 0 hits -> every_fetch_barren w 0 (slice_to n hits).
Proof.
  intros H i h title Hnth Hget. apply (H i h title); [|exact Hget].
  unfold slice_to in Hnth.
  destruct (0 <=? n)%Z; rewrite nth_error_firstn in Hnth;
    match type of Hnth with
    | (if ?c then _ else _) = _ => destruct c; [exact Hnth | discriminate]
    end.
Qed.

Lemma Forall_firstn (A : Type) (P : A -> Prop) k (l : list A) :
  Forall P l -> Forall P (firstn k l).
Proof.
  intros H. rewrite <- (firstn_skipn k l) in H.
  now apply Forall_app in H.
Qed.

Lemma Forall_slice_to (A : Type) (P : A -> Prop) n (l : list A) :
  Forall P l -> Forall P (slice_to n l).
Proof. unfold slice_to. destruct (0 <=? n)%Z; apply Forall_firstn. Qed.

(** When no fetch yields a source and every hit is a [dict], the loop
    ends with its variables untouched, after at most one request per
    candidate. *)
Lemma fetch_loop_barren w start_time time_limit candidates :
  Forall (fun h => is_dict h = true) candidates ->
  forall loc e,
    every_fetch_barren w (length (fetched e)) candidates ->
    exists e',
      fetch_loop w start_time time_limit candidates loc e = (Ok loc, e') /\
      length (fetched e') <= length (fetched e) + length candidates.
Proof.
  intros Hdict.
  induction candidates as [|hit rest IH]; intros loc e Hbarren.
  - exists e. split; [reflexivity | simpl; lia].
  - inversion Hdict as [|? ? Hhit Hrest]; subst.
    rewrite fetch_loop_cons. cbv zeta.
    destruct (expired start_time (clock w (ticks e)) time_limit).
    { eexists. split; [reflexivity | simpl; lia]. }
    destruct hit as [| | | | |entries]; try discriminate.
    destruct (get (VDict entries) (lit "title") (VStr []))
      as [title|] eqn:Hget; [|discriminate Hget].
    rewrite after_reply_barren.
    2: { specialize (Hbarren 0 (VDict entries) title eq_refl Hget).
         now rewrite Nat.add_0_r in Hbarren. }
    match goal with
    | |- context [fetch_loop _ _ _ rest loc ?s] =>
        destruct (IH Hrest loc s) as (e' & Hrun & Hlen)
    end.
    { cbn [fetched]. rewrite length_app. simpl.
      replace (length (fetched e) + 1) with (S (length (fetched e))) by lia.
      eapply every_fetch_barren_tail. exact Hbarren. }
    exists e'. split; [exact Hrun|].
    cbn [fetched] in Hlen. rewrite length_app in Hlen.
    cbn [length] in Hlen |- *. lia.
Qed.

Lemma prefix_refl (A : Type) (l : list A) : prefix l l.
Proof. exists []. now rewrite app_nil_r. Qed.

Lemma prefix_app (A : Type) (l m : list A) : prefix l (l ++ m).
Proof. now exists m. Qed.

Lemma prefix_nil (A : Type) (l : list A) : prefix [] l.
Proof. now exists l. Qed.

(** Two runs of the loop over the same candidates with the same replies,
    the second under a clock whose deadline never elapses: when the
    second completes, the first completes too, with an initial segment
    of its sources and of its requests. *)
Lemma fetch_loop_cut_short w c' start_time time_limit candidates :
  never_expires c' time_limit ->
  forall loc e1 e2 r1 e1' loc2 e2',
    fetched e1 = fetched e2 ->
    fetch_loop w start_time time_limit candidates loc e1 = (r1, e1') ->
    fetch_loop (with_clock w c') (c' 0) time_limit candidates loc e2
      = (Ok loc2, e2') ->
    exists loc1,
      r1 = Ok loc1 /\
      prefix (results_sources loc1) (results_sources loc2) /\
      prefix (fetched e1') (fetched e2').
Proof.
  intros Hfree.
  induction candidates as [|hit rest IH];
    intros loc e1 e2 r1 e1' loc2 e2' Hsame H1 H2.
  - inversion H1; inversion H2; subst. exists loc2.
    rewrite Hsame. repeat split; apply prefix_refl.
  - pose proof H2 as Hwhole. apply fetch_loop_spec in Hwhole.
    destruct Hwhole as [(more & Hmore & _) (new & Hnew & _)].
    rewrite fetch_loop_cons in H1, H2. cbv zeta in H1, H2.
    simpl clock in H2. rewrite Hfree in H2.
    destruct (expired start_time (clock w (ticks e1)) time_limit).
    { inversion H1; subst. exists loc. split; [reflexivity|]. split.
      - rewrite Hnew. apply prefix_app.
      - simpl. rewrite Hsame, Hmore. apply prefix_app. }
    destruct (get hit (lit "title") (VStr [])) as [title|x];
      [|discriminate H2].
    simpl py in H2. simpl content_get in H2. rewrite <- Hsame in H2.
    eapply IH; [| exact H1 | exact H2]. reflexivity.
Qed.

(** Iteration [i] reads the clock at index [i + 1] and has sent [i]
    requests; once a guard fires nothing more is sent. *)
Lemma fetch_loop_stops_at_guard w time_limit candidates :
  forall loc e r e',
    ticks e = S (length (fetched e)) ->
    fetch_loop w (clock w 0) time_limit candidates loc e = (r, e') ->
    forall i,
      length (fetched e) <= i -> guard_fires w time_limit i = true ->
      length (fetched e') <= i.
Proof.
  induction candidates as [|hit rest IH]; intros loc e r e' Hinv H i Hle Hfire.
  - inversion H; subst. exact Hle.
  - rewrite fetch_loop_cons in H. cbv zeta in H. rewrite Hinv in H.
    destruct (expired (clock w 0) (clock w (S (length (fetched e))))
                time_limit) eqn:Hguard.
    { inversion H; subst. exact Hle. }
    assert (Hlt : length (fetched e) < i).
    { destruct (Nat.eq_dec (length (fetched e)) i) as [<-|]; [|lia].
      unfold guard_fires in Hfire. congruence. }
    destruct (get hit (lit "title") (VStr [])) as [title|x].
    + eapply IH; [| exact H | | exact Hfire]; cbn [ticks fetched];
        rewrite length_app; simpl; lia.
    + inversion H; subst. simpl. lia.
Qed.

(** Unfolds a run down to the oracle calls. *)
Ltac unfold_run :=
  unfold deep_research, catch, pipeline, bind, time_time, search_request,
    lift, untouched, has_path; simpl.

(** A run whose search gives truthy hits is the fetch loop over the
    first [max_urls] of them, then [finish]. *)
Lemma deep_research_loop w query max_depth time_limit max_urls
      search_data q search_results capped candidates :
  search_get w query max_urls = Ok search_data ->
  getitem search_data (lit "query") = Ok q ->
  getitem q (lit "search") = Ok search_results ->
  truthy search_results = true ->
  slice search_results max_urls = Ok capped ->
  iterate capped = Ok candidates ->
  deep_research w query max_depth time_limit max_urls =
    (conclude (py w) query
       (fst (fetch_loop w (clock w 0) time_limit candidates no_sources
               loop_start)),
     snd (fetch_loop w (clock w 0) time_limit candidates no_sources
            loop_start)).
Proof.
  intros Hsearch Hq Hs Htruthy Hslice Hiter. unfold_run.
  rewrite Hsearch. rewrite (getitem_in _ _ Hq). simpl.
  rewrite Hq. simpl. rewrite (getitem_in _ _ Hs). simpl.
  rewrite Hs, Htruthy. simpl. rewrite Hslice, Hiter.
  fold loop_start.
  destruct (fetch_loop w (clock w 0) time_limit candidates no_sources
              loop_start) as [[loc|x] e]; reflexivity.
Qed.

(** A successful run went through the loop. *)
Lemma deep_research_success w query max_depth time_limit max_urls data eff :
  deep_research w query max_depth time_limit max_urls = (Success data, eff) ->
  exists search_data q search_results capped candidates loc,
    search_get w query max_urls = Ok search_data /\
    getitem search_data (lit "query") = Ok q /\
    getitem q (lit "search") = Ok search_results /\
    truthy search_results = true /\
    slice search_results max_urls = Ok capped /\
    iterate capped = Ok candidates /\
    fetch_loop w (clock w 0) time_limit candidates no_sources loop_start =
      (Ok loc, eff) /\
    finish query loc = Success data.
Proof.
  unfold_run. fold loop_start. intros H.
  destruct (search_get w query max_urls) as [search_data|] eqn:Hsearch;
    [|discriminate].
  destruct (py_in (lit "query") search_data) as [[|]|]; simpl in H;
    try discriminate.
  destruct (getitem search_data (lit "query")) as [q|] eqn:Hq; simpl in H;
    [|discriminate].
  destruct (py_in (lit "search") q) as [[|]|]; simpl in H; try discriminate.
  destruct (getitem q (lit "search")) as [search_results|] eqn:Hs;
    simpl in H; [|discriminate].
  destruct (truthy search_results) eqn:Htruthy; simpl in H; [|discriminate].
  destruct (slice search_results max_urls) as [capped|] eqn:Hslice;
    simpl in H; [|discriminate].
  destruct (iterate capped) as [candidates|] eqn:Hiter; simpl in H;
    [|discriminate].
  destruct (fetch_loop w (clock w 0) time_limit candidates no_sources
              loop_start) as [[loc|x] e] eqn:Hloop; [|discriminate].
  unfold ret in H. inversion H; subst.
  exists search_data, q, search_results, capped, candidates, loc.
  repeat split; auto.
Qed.

(** The run reads its world only through the answers it gets. *)
Section SameResponses.

Variables w w' : world.
Hypothesis Hsame : same_responses w w'.

Lemma format_same v : format (py w) v = format (py w') v.
Proof. destruct v; simpl; auto; apply Hsame. Qed.

Lemma accept_same title text u loc :
  accept (py w) title text u loc = accept (py w') title text u loc.
Proof. unfold accept, block. now rewrite !format_same. Qed.

Lemma scan_pages_same title pages loc :
  scan_pages (py w) title pages loc = scan_pages (py w') title pages loc.
Proof.
  induction pages as [|[page_id page] rest IH]; simpl; [reflexivity|].
  destruct (py_in (lit "extract") page) as [[|]|]; simpl; auto.
  destruct (getitem page (lit "extract")) as [extract|]; simpl; auto.
  destruct (slice extract 1200) as [text|]; simpl; auto.
  destruct (replace_spaces title); simpl; auto.
  now rewrite accept_same.
Qed.

Lemma harvest_same title content_data loc :
  harvest (py w) title content_data loc
  = harvest (py w') title content_data loc.
Proof.
  unfold harvest.
  destruct (has_path content_data (lit "query") (lit "pages")) as [[|]|];
    simpl; auto.
  destruct (getitem content_data (lit "query")) as [q|]; simpl; auto.
  destruct (getitem q (lit "pages")) as [pages|]; simpl; auto.
  destruct (items pages) as [entries|]; simpl; auto.
  apply scan_pages_same.
Qed.

Lemma after_reply_same title loc reply :
  after_reply (py w) title loc reply = after_reply (py w') title loc reply.
Proof.
  unfold after_reply. destruct reply; [|reflexivity].
  now rewrite harvest_same.
Qed.

Lemma fetch_loop_same start_time time_limit candidates :
  forall loc e,
    fetch_loop w start_time time_limit candidates loc e
    = fetch_loop w' start_time time_limit candidates loc e.
Proof.
  destruct Hsame as (Hclock & _ & Hcontent & _).
  induction candidates as [|hit rest IH]; intros loc e; [reflexivity|].
  rewrite !fetch_loop_cons. cbv zeta. rewrite Hclock.
  destruct (expired start_time (clock w' (ticks e)) time_limit);
    [reflexivity|].
  destruct (get hit (lit "title") (VStr [])) as [title|]; [|reflexivity].
  rewrite Hcontent, after_reply_same. apply IH.
Qed.

Lemma str_of_exn_same x : str_of_exn (py w) x = str_of_exn (py w') x.
Proof. destruct x; simpl; [apply Hsame | reflexivity]. Qed.

End SameResponses.

End ResearchFacts.

(** ** The claims on the pipeline *)

Module ResearchClaims.
Import Py Research Terms Samples Stated PyFacts ResearchFacts.
Local Open Scope string_scope.
Local Open Scope list_scope.

(** The two end-to-end examples of the specification. *)
Example turing_end_to_end :
  let run := deep_research turing (lit "Turing") 2 120 2 in
  map title (delivered (fst run))
    = [VStr (lit "Alan Turing"); VStr (lit "Turing Award")] /\
  map url (delivered (fst run))
    = [lit "https://en.wikipedia.org/wiki/Alan_Turing";
       lit "https://en.wikipedia.org/wiki/Turing_Award"] /\
  map snippet (delivered (fst run))
    = [VStr (lit "English mathematician");
       VStr (lit "English mathematician")] /\
  fetched (snd run) = [VStr (lit "Alan Turing"); VStr (lit "Turing Award")].
Proof. repeat split. Qed.

Example no_such_topic_end_to_end :
  deep_research nothing_found (lit "zzzzz_no_such_topic") 2 120 5
  = (Failure (lit "No results found for 'zzzzz_no_such_topic'"), loop_start).
Proof. reflexivity. Qed.

(** C1.  With a cap [max_urls = N] that is not negative, a successful run
    returns at least one source and at most [N]. *)
Theorem success_has_one_to_cap_sources
    w query max_depth time_limit max_urls data eff :
  (0 <= max_urls)%Z ->
  deep_research w query max_depth time_limit max_urls = (Success data, eff) ->
  (1 <= Z.of_nat (length (sources data)) <= max_urls)%Z.
Proof.
  intros Hcap Hrun.
  destruct (deep_research_success _ _ _ _ _ Hrun)
    as (sd & q & sr & capped & cands & loc & _ & _ & _ & _ & Hsl & Hit
        & Hloop & Hfin).
  pose proof (iterate_slice_length _ Hcap Hsl Hit) as Hlen.
  destruct (fetch_loop_spec _ _ _ _ _ _ Hloop)
    as [_ (new & Hsrc & Hsum & Hnew & _)].
  simpl in Hsrc, Hsum. unfold finish in Hfin.
  destruct (content_summary loc) as [|b bs] eqn:Hcs; [discriminate|].
  inversion Hfin; subst data. simpl. rewrite Hsrc.
  simpl in Hsum. lia.
Qed.

Lemma success_has_one_to_cap_sources_witness :
  exists data eff,
    deep_research turing (lit "Turing") 2 120 2 = (Success data, eff) /\
    (1 <= Z.of_nat (length (sources data)) <= 2)%Z.
Proof.
  eexists; eexists. split.
  - vm_compute. reflexivity.
  - eapply (@success_has_one_to_cap_sources turing (lit "Turing") 2 120 2).
    + lia.
    + vm_compute. reflexivity.
Defined.

(** C4.  When the search gives an empty list of hits, the run fails
    (with "No results found for '<query>'") and no content request is
    sent. *)
Theorem no_hits_fail_without_fetch
    w query max_depth time_limit max_urls search_data q :
  search_get w query max_urls = Ok search_data ->
  getitem search_data (lit "query") = Ok q ->
  getitem q (lit "search") = Ok (VList []) ->
  exists eff,
    deep_research w query max_depth time_limit max_urls =
      (Failure (lit "No results found for '" ++ query ++ lit "'"), eff) /\
    fetched eff = [].
Proof.
  intros Hsearch Hq Hs. exists loop_start. split; [|reflexivity].
  unfold_run.
  rewrite Hsearch. rewrite (getitem_in _ _ Hq). simpl.
  rewrite Hq. simpl. rewrite (getitem_in _ _ Hs). simpl.
  rewrite Hs. reflexivity.
Qed.

Lemma no_hits_fail_without_fetch_witness :
  exists eff,
    deep_research nothing_found (lit "zzzzz_no_such_topic") 2 120 5 =
      (Failure (lit "No results found for 'zzzzz_no_such_topic'"), eff) /\
    fetched eff = [].
Proof.
  apply (@no_hits_fail_without_fetch nothing_found
           (lit "zzzzz_no_such_topic") 2 120 5
           (search_reply [])
           (VDict [(lit "search", VList [])]));
    reflexivity.
Defined.

(** C10.  The outcome does not depend on [max_depth]: two runs with the
    same query, time limit and cap, in worlds that give the same clock
    readings and the same HTTP responses, return the same outcome and
    send the same requests, whatever the two values of [max_depth]. *)
Theorem max_depth_is_ignored
    w w' query depth depth' time_limit max_urls :
  same_responses w w' ->
  deep_research w query depth time_limit max_urls =
  deep_research w' query depth' time_limit max_urls.
Proof.
  intros Hsame. pose proof Hsame as (Hclock & Hsearch & _).
  unfold deep_research, catch, pipeline, time_time, search_request.
  unfold bind, lift, untouched. simpl.
  rewrite Hclock, Hsearch.
  destruct (search_get w' query max_urls) as [search_data|x];
    [|now rewrite (str_of_exn_same Hsame)].
  destruct (has_path search_data (lit "query") (lit "search")) as [[|]|x];
    [| reflexivity | now rewrite (str_of_exn_same Hsame)].
  destruct (Py.bind_r _ _) as [search_results|x];
    [|now rewrite (str_of_exn_same Hsame)].
  destruct (truthy search_results); simpl; [|reflexivity].
  destruct (slice search_results max_urls) as [capped|x];
    [|now rewrite (str_of_exn_same Hsame)].
  destruct (iterate capped) as [candidates|x];
    [|now rewrite (str_of_exn_same Hsame)].
  rewrite (fetch_loop_same Hsame).
  destruct (fetch_loop w' _ _ _ _ _) as [[loc|x] e];
    [reflexivity | now rewrite (str_of_exn_same Hsame)].
Qed.

Lemma max_depth_is_ignored_witness :
  deep_research turing (lit "Turing") 1 120 2 =
  deep_research (with_clock turing one_second_per_reading) (lit "Turing")
    3 120 2.
Proof.
  apply max_depth_is_ignored. repeat split.
Defined.

(** Every source of a successful run was picked for one of the
    candidates the loop visited. *)
Lemma sources_are_picked w query max_depth time_limit max_urls data eff :
  deep_research w query max_depth time_limit max_urls = (Success data, eff) ->
  exists search_data candidates,
    search_get w query max_urls = Ok search_data /\
    candidates_of search_data max_urls = Ok candidates /\
    Forall (picked w candidates) (sources data).
Proof.
  intros Hrun.
  destruct (deep_research_success _ _ _ _ _ Hrun)
    as (sd & q & sr & capped & cands & loc & Hsearch & Hq & Hs & _ & Hsl
        & Hit & Hloop & Hfin).
  exists sd, cands. split; [exact Hsearch|]. split.
  - unfold candidates_of. rewrite Hq. simpl. rewrite Hs. simpl.
    rewrite Hsl. exact Hit.
  - destruct (fetch_loop_spec _ _ _ _ _ _ Hloop)
      as [_ (new & Hsrc & _ & _ & Hall)].
    unfold finish in Hfin.
    destruct (content_summary loc); [discriminate|].
    inversion Hfin; subst data. simpl. now rewrite Hsrc.
Qed.

(** C8.  The snippet of every source of a result is the [[:1200]] slice
    of an extract that the content endpoint returned for the source's
    title: for a string extract its first 1200 characters.  Its length
    is at most 1200. *)
Theorem snippet_is_extract_cut_at_1200
    w query max_depth time_limit max_urls data eff s :
  deep_research w query max_depth time_limit max_urls = (Success data, eff) ->
  In s (sources data) ->
  (exists k content_data extract,
     content_get w k (title s) = Ok content_data /\
     offers_extract content_data extract /\
     slice extract 1200 = Ok (snippet s) /\
     (forall text, extract = VStr text -> snippet s = VStr (firstn 1200 text)))
  /\ len (snippet s) <= 1200.
Proof.
  intros Hrun Hin.
  destruct (sources_are_picked _ _ _ _ _ Hrun) as (sd & cands & _ & _ & Hall).
  rewrite Forall_forall in Hall.
  destruct (Hall s Hin)
    as (result & k & cd & _ & _ & Hcg & ex & t & Hoff & Hsl & _).
  split.
  - exists k, cd, ex. repeat split; auto.
    intros text ->. simpl in Hsl. inversion Hsl. reflexivity.
  - change 1200 with (Z.to_nat 1200). eapply slice_len; [lia | exact Hsl].
Qed.

Lemma snippet_is_extract_cut_at_1200_witness :
  let s := {| title := VStr (lit "Alan Turing");
              url := lit "https://en.wikipedia.org/wiki/Alan_Turing";
              snippet := VStr (lit "English mathematician") |} in
  (exists k content_data extract,
     content_get turing k (title s) = Ok content_data /\
     offers_extract content_data extract /\
     slice extract 1200 = Ok (snippet s) /\
     (forall text, extract = VStr text -> snippet s = VStr (firstn 1200 text)))
  /\ len (snippet s) <= 1200.
Proof.
  intros s.
  eapply (@snippet_is_extract_cut_at_1200 turing (lit "Turing") 2 120 2).
  - vm_compute. reflexivity.
  - left. reflexivity.
Defined.

(** C9.  The url of every source of a result is
    "https://en.wikipedia.org/wiki/" followed by the title of a search hit
    as the search returned it, with each space (code point 32) turned into
    an underscore (95) and nothing else changed. *)
Theorem url_is_title_with_underscores
    w query max_depth time_limit max_urls data eff s :
  deep_research w query max_depth time_limit max_urls = (Success data, eff) ->
  In s (sources data) ->
  exists search_data candidates hit t,
    search_get w query max_urls = Ok search_data /\
    candidates_of search_data max_urls = Ok candidates /\
    In hit candidates /\
    get hit (lit "title") (VStr []) = Ok (VStr t) /\
    title s = VStr t /\
    url s =
      lit "https://en.wikipedia.org/wiki/"
      ++ map (fun c => if (c =? 32)%N then 95%N else c) t.
Proof.
  intros Hrun Hin.
  destruct (sources_are_picked _ _ _ _ _ Hrun)
    as (sd & cands & Hsearch & Hcands & Hall).
  rewrite Forall_forall in Hall.
  destruct (Hall s Hin)
    as (hit & k & cd & Hhit & Hget & _ & ex & t & _ & _ & Ht & _ & Hurl).
  exists sd, cands, hit, t. rewrite <- Ht. repeat split; auto.
Qed.

Lemma url_is_title_with_underscores_witness :
  let s := {| title := VStr (lit "Alan Turing");
              url := lit "https://en.wikipedia.org/wiki/Alan_Turing";
              snippet := VStr (lit "English mathematician") |} in
  exists search_data candidates hit t,
    search_get turing (lit "Turing") 2 = Ok search_data /\
    candidates_of search_data 2 = Ok candidates /\
    In hit candidates /\
    get hit (lit "title") (VStr []) = Ok (VStr t) /\
    title s = VStr t /\
    url s =
      lit "https://en.wikipedia.org/wiki/"
      ++ map (fun c => if (c =? 32)%N then 95%N else c) t.
Proof.
  intros s.
  eapply (@url_is_title_with_underscores turing (lit "Turing") 2 120 2).
  - vm_compute. reflexivity.
  - left. reflexivity.
Defined.

(** C3, as the specification words it, fails: the reason the code gives
    starts with a capital letter. *)
Lemma lowercase_reason_refuted : ~ fails_with_lowercase_reason.
Proof.
  intros H.
  assert (Hdict : Forall (fun h => is_dict h = true) [hit "Alan Turing"])
    by (repeat constructor).
  assert (Hbarren : every_fetch_barren every_fetch_fails 0
                      [hit "Alan Turing"])
    by (intros i h title _ _; reflexivity).
  destruct (H every_fetch_fails (lit "Turing") 2%Z 120%Z 5%Z
              (search_reply ["Alan Turing"])
              (VDict [(lit "search", VList [hit "Alan Turing"])])
              [hit "Alan Turing"]
              ltac:(lia) eq_refl eq_refl eq_refl ltac:(discriminate)
              Hdict Hbarren)
    as (eff & Hrun & _).
  vm_compute in Hrun. discriminate Hrun.
Qed.

(** C3, amended.  When the search gives hits (a non-empty list of
    objects) and the content fetch of every hit yields no source, the run
    fails with the reason "Could not retrieve any content", having sent
    at most [max_urls] content requests. *)
Theorem no_content_failure
    w query max_depth time_limit max_urls search_data q hits :
  (0 <= max_urls)%Z ->
  search_get w query max_urls = Ok search_data ->
  getitem search_data (lit "query") = Ok q ->
  getitem q (lit "search") = Ok (VList hits) ->
  hits <> [] ->
  Forall (fun h => is_dict h = true) hits ->
  every_fetch_barren w 0 hits ->
  exists eff,
    deep_research w query max_depth time_limit max_urls =
      (Failure (lit "Could not retrieve any content"), eff) /\
    (Z.of_nat (length (fetched eff)) <= max_urls)%Z.
Proof.
  intros Hcap Hsearch Hq Hs Hne Hdict Hbarren.
  assert (Htruthy : truthy (VList hits) = true)
    by (destruct hits; [congruence | reflexivity]).
  rewrite (@deep_research_loop w query max_depth time_limit max_urls
             search_data q (VList hits) (VList (slice_to max_urls hits))
             (slice_to max_urls hits))
    by auto.
  destruct (@fetch_loop_barren w (clock w 0) time_limit
              (slice_to max_urls hits) (Forall_slice_to _ Hdict)
              no_sources loop_start
              (every_fetch_barren_slice max_urls Hbarren))
    as (e' & Hrun & Hlen).
  rewrite Hrun. simpl. exists e'. split; [reflexivity|].
  pose proof (slice_to_length hits Hcap). simpl in Hlen. lia.
Qed.

Lemma no_content_failure_witness :
  exists eff,
    deep_research every_fetch_fails (lit "Turing") 2 120 5 =
      (Failure (lit "Could not retrieve any content"), eff) /\
    (Z.of_nat (length (fetched eff)) <= 5)%Z.
Proof.
  apply (@no_content_failure every_fetch_fails (lit "Turing") 2 120 5
           (search_reply ["Alan Turing"])
           (VDict [(lit "search", VList [hit "Alan Turing"])])
           [hit "Alan Turing"]).
  - lia.
  - reflexivity.
  - reflexivity.
  - reflexivity.
  - discriminate.
  - repeat constructor.
  - intros i h title _ _. reflexivity.
Defined.

(** C5, as the specification words it, fails: a page whose extract is
    the empty string is taken, and a later page with text is ignored. *)
Lemma first_nonempty_extract_refuted : ~ keeps_first_nonempty_extract.
Proof.
  intros H.
  specialize (H quiet (lit "Alan Turing") two_pages (lit "text") no_sources
                ltac:(simpl; lia) eq_refl).
  vm_compute in H. discriminate H.
Qed.

(** C5, amended.  When the pages of a content response hold several page
    ids, the one source appended for the title comes from the first page
    that has an ["extract"] key, whether that extract is empty or not;
    the page ids after it are ignored. *)
Theorem first_page_with_extract_key_is_kept
    py t content_data q before page_id page after extract text loc :
  getitem content_data (lit "query") = Ok q ->
  getitem q (lit "pages") = Ok (VDict (before ++ (page_id, page) :: after)) ->
  Forall (fun p => py_in (lit "extract") (snd p) = Ok false) before ->
  getitem page (lit "extract") = Ok extract ->
  slice extract 1200 = Ok text ->
  exists loc',
    harvest py (VStr t) content_data loc = Ok loc' /\
    results_sources loc' = results_sources loc ++ [record (VStr t) text t] /\
    length (content_summary loc') = S (length (content_summary loc)).
Proof.
  intros Hq Hpages Hbefore Hextract Hslice.
  exists (accept py (VStr t) text (wiki_prefix ++ replace_char 32%N 95%N t) loc).
  split; [|split].
  - unfold harvest, has_path.
    rewrite (getitem_in _ _ Hq). simpl. rewrite Hq. simpl.
    rewrite (getitem_in _ _ Hpages). simpl. rewrite Hpages. simpl.
    now apply scan_pages_first with (extract := extract).
  - reflexivity.
  - simpl. rewrite length_app. simpl. lia.
Qed.

Lemma first_page_with_extract_key_is_kept_witness :
  exists loc',
    harvest quiet (VStr (lit "Alan Turing")) (content_reply two_pages)
      no_sources = Ok loc' /\
    results_sources loc' =
      [record (VStr (lit "Alan Turing")) (VStr []) (lit "Alan Turing")] /\
    length (content_summary loc') = 1.
Proof.
  apply (@first_page_with_extract_key_is_kept quiet (lit "Alan Turing")
           (content_reply two_pages) (VDict [(lit "pages", VDict two_pages)])
           [] (lit "11") (page_with "") [(lit "12", page_with "text")]
           (VStr []) (VStr []) no_sources).
  - reflexivity.
  - reflexivity.
  - constructor.
  - reflexivity.
  - reflexivity.
Defined.

(** C2, as the specification words it, fails: when the candidates left
    at the deadline would not have given a source anyway, the run cut
    short returns the very same sources as the deadline-free run. *)
Lemma strict_prefix_refuted : ~ cut_short_is_strict_prefix.
Proof.
  intros H.
  assert (Hfree : never_expires standing_clock 120) by (intros k; reflexivity).
  assert (Hmid : elapses_mid_loop second_is_barren (lit "Turing") 120 2).
  { exists (search_reply ["Alan Turing"; "Turing Award"]),
      [hit "Alan Turing"; hit "Turing Award"], 1.
    repeat split. simpl. lia. }
  destruct (H second_is_barren standing_clock (lit "Turing") 2%Z 120%Z 2%Z
              _ _ _ _ Hfree Hmid eq_refl eq_refl) as (x & rest & Heq).
  apply (f_equal (@length source)) in Heq.
  rewrite length_app in Heq. simpl in Heq. lia.
Qed.

(** C2, amended.  Take a run and the run over the same replies under a
    clock whose deadline never elapses, and suppose the latter succeeds.
    Then the first run either succeeds or fails for want of content; the
    sources it returns are an initial segment, in the same order and
    possibly the whole, of the sources of the deadline-free run; so are
    its content requests; and once the guard before iteration [i] finds
    the deadline passed, no more than the [i] requests already sent are
    ever sent. *)
Theorem cut_short_is_prefix
    w c' query max_depth time_limit max_urls out eff data' eff' :
  never_expires c' time_limit ->
  deep_research w query max_depth time_limit max_urls = (out, eff) ->
  deep_research (with_clock w c') query max_depth time_limit max_urls
    = (Success data', eff') ->
  ((exists data, out = Success data) \/
   out = Failure (lit "Could not retrieve any content")) /\
  prefix (delivered out) (sources data') /\
  prefix (fetched eff) (fetched eff') /\
  (forall i, guard_fires w time_limit i = true -> length (fetched eff) <= i).
Proof.
  intros Hfree Hrun Hrun'.
  destruct (deep_research_success _ _ _ _ _ Hrun')
    as (sd & q & sr & capped & cands & loc2 & Hsearch & Hq & Hs & Htruthy
        & Hsl & Hit & Hloop2 & Hfin).
  simpl in Hsearch.
  rewrite (@deep_research_loop w query max_depth time_limit max_urls
             sd q sr capped cands) in Hrun by assumption.
  destruct (fetch_loop w (clock w 0) time_limit cands no_sources loop_start)
    as [r1 e1] eqn:Hloop1.
  simpl in Hrun. inversion Hrun; subst out eff. clear Hrun.
  destruct (@fetch_loop_cut_short w c' (clock w 0) time_limit cands Hfree
              no_sources loop_start loop_start r1 e1 loc2 eff' eq_refl
              Hloop1 Hloop2) as (loc1 & -> & Hsources & Hfetched).
  assert (Hdata : sources data' = results_sources loc2).
  { unfold finish in Hfin. destruct (content_summary loc2); [discriminate|].
    inversion Hfin. reflexivity. }
  rewrite Hdata. simpl. unfold finish.
  repeat split.
  - destruct (content_summary loc1); [now right | left; eauto].
  - destruct (content_summary loc1); [apply prefix_nil | exact Hsources].
  - exact Hfetched.
  - intros i Hfire.
    apply (@fetch_loop_stops_at_guard w time_limit cands no_sources
             loop_start (Ok loc1) e1 eq_refl Hloop1 i); [simpl; lia | exact Hfire].
Qed.

Lemma cut_short_is_prefix_witness :
  exists out eff data' eff',
    deep_research turing (lit "Turing") 2 1 2 = (out, eff) /\
    deep_research (with_clock turing standing_clock) (lit "Turing") 2 1 2
      = (Success data', eff') /\
    length (delivered out) = 1 /\ length (sources data') = 2 /\
    ((exists data, out = Success data) \/
     out = Failure (lit "Could not retrieve any content")) /\
    prefix (delivered out) (sources data') /\
    prefix (fetched eff) (fetched eff') /\
    (forall i, guard_fires turing 1 i = true -> length (fetched eff) <= i).
Proof.
  do 4 eexists.
  split; [vm_compute; reflexivity|].
  split; [vm_compute; reflexivity|].
  split; [reflexivity|]. split; [reflexivity|].
  apply (@cut_short_is_prefix turing standing_clock (lit "Turing") 2 1 2).
  - intros k. reflexivity.
  - vm_compute. reflexivity.
  - vm_compute. reflexivity.
Defined.

End ResearchClaims.

(** ** The claims on the summarizer *)

Module LlmClaims.
Import Py Llm Samples.
Local Open Scope string_scope.
Local Open Scope list_scope.

(** The first [try] logs one call and gives what the reply holds. *)
Lemma openrouter_attempt_logs_once w key messages temperature log :
  snd (openrouter_attempt w key messages temperature log)
  = log ++ [OpenRouter].
Proof.
  unfold openrouter_attempt, bind, post, lift.
  destruct (openrouter_post w key messages temperature) as [resp|];
    [|reflexivity].
  destruct (raise_for_status resp); [|reflexivity].
  destruct (json resp); reflexivity.
Qed.

(** C6.  With both keys set, when the primary attempt raises and the
    secondary answers, [call_llm] returns the secondary's content (the
    [content] attribute of its first message, or [str(resp)] when the
    message has none), and the log shows one call of the primary followed
    by one of the secondary. *)
Theorem fallback_returns_secondary
    w st messages temperature e resp msg :
  configured (openrouter_api_key st) = true ->
  configured (groq_api_key st) = true ->
  fst (openrouter_attempt w (openrouter_api_key st) messages temperature [])
    = Raise e ->
  groq_create w (groq_api_key st) messages temperature = Ok resp ->
  choices_0_message resp = Ok msg ->
  call_llm w st messages temperature [] =
    (Ok (match msg with
         | Some c => c
         | None => VStr (as_str resp)
         end),
     [OpenRouter; Groq]).
Proof.
  intros Hk1 Hk2 Hfail Hgroq Hmsg.
  unfold call_llm. rewrite Hk1, Hk2.
  unfold bind at 1. unfold try_except at 1. unfold bind at 1.
  pose proof (openrouter_attempt_logs_once w (openrouter_api_key st)
                messages temperature []) as Hlog.
  destruct (openrouter_attempt w (openrouter_api_key st) messages
              temperature []) as [r log].
  simpl in Hfail, Hlog. subst r log. simpl.
  unfold try_except, groq_attempt, bind, create, lift, ret.
  rewrite Hgroq, Hmsg. reflexivity.
Qed.

Lemma fallback_returns_secondary_witness :
  call_llm primary_down both_keys [] (7 # 10)%Q [] =
    (Ok (VStr (lit "A summary.")), [OpenRouter; Groq]).
Proof.
  apply (@fallback_returns_secondary primary_down both_keys [] (7 # 10)%Q
           (Raised (lit "503 Server Error: Service Unavailable"))
           {| choices_0_message := Ok (Some (VStr (lit "A summary.")));
              as_str := lit "ChatCompletion(...)" |}
           (Some (VStr (lit "A summary.")))); reflexivity.
Defined.

(** [generate_summary] never raises, and returns: with no key set, the
    string "AI summary unavailable - set API key in configuration",
    without a provider call; when building the prompt or the provider
    call raises, the string "Summary generation failed: " followed by the
    text of the exception; otherwise the content the provider call
    returned, as it is. *)
Lemma summary_never_raises w st research_data query :
  exists v log,
    generate_summary w st research_data query [] = (Ok v, log) /\
    ((configured (openrouter_api_key st) = false /\
      configured (groq_api_key st) = false /\
      v = VStr (lit "AI summary unavailable - set API key in configuration")
      /\ log = [])
     \/
     (exists e,
        summary_attempt w st research_data query [] = (Raise e, log) /\
        v = VStr (lit "Summary generation failed: " ++ str_of_exn (py w) e))
     \/
     (exists messages,
        build_messages (py w) research_data query = Ok messages /\
        call_llm w st messages (7 # 10)%Q [] = (Ok v, log))).
Proof.
  unfold generate_summary.
  destruct (configured (openrouter_api_key st)) eqn:Hk1;
    [|destruct (configured (groq_api_key st)) eqn:Hk2]; simpl.
  3: { eexists; eexists. split; [reflexivity|]. left. auto. }
  all: unfold try_except;
    destruct (summary_attempt w st research_data query [])
      as [[v|e] log] eqn:Hrun;
    eexists; eexists; (split; [reflexivity|]); right;
    [right | left; eauto].
  all: unfold summary_attempt, bind, lift in Hrun;
    destruct (build_messages (py w) research_data query) as [messages|];
    [|discriminate Hrun]; exists messages; auto.
Qed.

(** C7.  The code returns a provider's [content] unchecked: when the
    primary answers 200 with ["content": null], [generate_summary]
    returns [None], which is not a string. *)
Theorem summary_of_null_content_is_none :
  generate_summary null_content both_keys turing_data (lit "Turing") []
  = (Ok VNone, [OpenRouter])
  /\ forall text, VNone <> VStr text.
Proof.
  split; [vm_compute; reflexivity | discriminate].
Qed.

End LlmClaims.

(** ** More on the pipeline *)

Module ResearchMore.
Import Py Research Terms More Samples MoreSamples PyFacts ResearchFacts.
Local Open Scope string_scope.
Local Open Scope list_scope.

(** A run, branch by branch. *)
Lemma deep_research_cases w query max_depth time_limit max_urls :
  deep_research w query max_depth time_limit max_urls =
  match search_get w query max_urls with
  | Raise x => (research_failed (py w) x, loop_start)
  | Ok search_data =>
      match has_path search_data (lit "query") (lit "search") with
      | Raise x => (research_failed (py w) x, loop_start)
      | Ok false => (Failure (lit "No search results found"), loop_start)
      | Ok true =>
          match Py.bind_r (getitem search_data (lit "query"))
                  (fun q => getitem q (lit "search")) with
          | Raise x => (research_failed (py w) x, loop_start)
          | Ok search_results =>
              if truthy search_results then
                match Py.bind_r (slice search_results max_urls) iterate with
                | Raise x => (research_failed (py w) x, loop_start)
                | Ok candidates =>
                    (conclude (py w) query
                       (fst (fetch_loop w (clock w 0) time_limit candidates
                               no_sources loop_start)),
                     snd (fetch_loop w (clock w 0) time_limit candidates
                            no_sources loop_start))
                end
              else
                (Failure (lit "No results found for '" ++ query ++ lit "'"),
                 loop_start)
          end
      end
  end.
Proof.
  unfold deep_research, catch, pipeline, time_time, search_request.
  unfold bind, lift, untouched, research_failed. simpl. fold loop_start.
  destruct (search_get w query max_urls) as [search_data|x]; [|reflexivity].
  destruct (has_path search_data (lit "query") (lit "search")) as [[|]|x];
    try reflexivity.
  destruct (Py.bind_r _ _) as [search_results|x]; [|reflexivity].
  destruct (truthy search_results); simpl; [|reflexivity].
  destruct (slice search_results max_urls) as [capped|x]; [|reflexivity].
  simpl.
  destruct (iterate capped) as [candidates|x]; [|reflexivity].
  destruct (fetch_loop w _ _ _ _ _) as [[loc|x] e]; reflexivity.
Qed.

(** What the loop leaves behind: the search count untouched, one request
    per candidate visited, and sources, blocks and counter that grow
    together, the sources in the order of the requests. *)
Lemma fetch_loop_trace w start_time time_limit candidates :
  forall loc e r e',
    fetch_loop w start_time time_limit candidates loc e = (r, e') ->
    searches e' = searches e /\
    exists more,
      fetched e' = fetched e ++ more /\
      length more <= length candidates /\
      match r with
      | Ok loc' =>
          exists new,
            results_sources loc' = results_sources loc ++ new /\
            content_summary loc' =
              content_summary loc ++ blocks (py w) (counter loc) new /\
            counter loc' = counter loc + length new /\
            subseq (map title new) more
      | Raise _ => True
      end.
Proof.
  induction candidates as [|hit rest IH]; intros loc e r e' H.
  - inversion H; subst. split; [reflexivity|].
    exists []. rewrite app_nil_r. repeat split; auto.
    exists []. rewrite !app_nil_r. repeat split; auto. constructor.
  - rewrite fetch_loop_cons in H. cbv zeta in H.
    destruct (expired start_time (clock w (ticks e)) time_limit).
    { inversion H; subst. split; [reflexivity|].
      exists []. simpl. rewrite app_nil_r. repeat split; [lia|].
      exists []. rewrite !app_nil_r. repeat split; auto. constructor. }
    destruct (get hit (lit "title") (VStr [])) as [title|x] eqn:Hget.
    2: { inversion H; subst. split; [reflexivity|].
         exists []. simpl. rewrite app_nil_r. repeat split; auto. lia. }
    apply IH in H. cbn [fetched searches] in H.
    destruct H as (Hsearches & more & Hmore & Hlen & Hr).
    split; [exact Hsearches|].
    exists (title :: more). rewrite Hmore, <- app_assoc.
    split; [reflexivity|]. split; [simpl; lia|].
    destruct r as [loc'|]; [|exact I].
    destruct Hr as (new & Hsrc & Hsum & Hcount & Hsub).
    destruct (after_reply_spec (py w) title loc
                (content_get w (length (fetched e)) title))
      as [Hsame|(data & s & Hreply & Hmade & Hext)].
    + rewrite Hsame in Hsrc, Hsum, Hcount.
      exists new. repeat split; auto. now constructor.
    + red in Hext. rewrite Hext in Hsrc, Hsum, Hcount.
      cbn [accept results_sources content_summary counter] in Hsrc, Hsum,
        Hcount.
      rewrite <- app_assoc in Hsrc, Hsum.
      destruct Hmade as (_ & _ & _ & _ & _ & Htitle & _).
      exists (s :: new). repeat split.
      * destruct s; exact Hsrc.
      * exact Hsum.
      * simpl. lia.
      * simpl. rewrite Htitle. now constructor.
Qed.

(** X3.  Whatever the outcome, a run with a cap that is not negative
    sends exactly one search request and at most [max_urls] content
    requests. *)
Theorem one_search_and_capped_fetches
    w query max_depth time_limit max_urls out eff :
  (0 <= max_urls)%Z ->
  deep_research w query max_depth time_limit max_urls = (out, eff) ->
  searches eff = 1 /\ (Z.of_nat (length (fetched eff)) <= max_urls)%Z.
Proof.
  intros Hcap. rewrite deep_research_cases. intros H.
  destruct (search_get w query max_urls) as [search_data|x];
    [|inversion H; subst; simpl; lia].
  destruct (has_path search_data (lit "query") (lit "search")) as [[|]|x];
    try (inversion H; subst; simpl; lia).
  destruct (Py.bind_r _ _) as [search_results|x];
    [|inversion H; subst; simpl; lia].
  destruct (truthy search_results); [|inversion H; subst; simpl; lia].
  destruct (slice search_results max_urls) as [capped|x] eqn:Hslice;
    simpl in H; [|inversion H; subst; simpl; lia].
  destruct (iterate capped) as [candidates|x] eqn:Hiter;
    [|inversion H; subst; simpl; lia].
  pose proof (iterate_slice_length _ Hcap Hslice Hiter) as Hlen.
  destruct (fetch_loop w (clock w 0) time_limit candidates no_sources
              loop_start) as [r e] eqn:Hloop.
  inversion H; subst. simpl.
  destruct (fetch_loop_trace _ _ _ _ _ _ Hloop)
    as (Hsearches & more & Hmore & Hmany & _).
  simpl in Hsearches, Hmore. rewrite Hmore. split; [exact Hsearches | lia].
Qed.

Lemma one_search_and_capped_fetches_witness :
  exists out eff,
    deep_research turing (lit "Turing") 2 120 2 = (out, eff) /\
    searches eff = 1 /\ (Z.of_nat (length (fetched eff)) <= 2)%Z.
Proof.
  do 2 eexists. split; [vm_compute; reflexivity|].
  eapply (@one_search_and_capped_fetches turing (lit "Turing") 2 120 2).
  - lia.
  - vm_compute. reflexivity.
Defined.

(** X1.  When the search request (or the decoding of its body) raises,
    the run fails with "Research failed: " followed by the text of the
    exception, after that one request and without any content request. *)
Theorem search_error_fails_fast w query max_depth time_limit max_urls x :
  search_get w query max_urls = Raise x ->
  exists eff,
    deep_research w query max_depth time_limit max_urls =
      (Failure (lit "Research failed: " ++ str_of_exn (py w) x), eff) /\
    searches eff = 1 /\ fetched eff = [].
Proof.
  intros H. rewrite deep_research_cases, H.
  exists loop_start. repeat split.
Qed.

Lemma search_error_fails_fast_witness :
  exists eff,
    deep_research search_times_out (lit "Turing") 2 120 5 =
      (Failure (lit "Research failed: Read timed out."), eff) /\
    searches eff = 1 /\ fetched eff = [].
Proof.
  apply (@search_error_fails_fast search_times_out (lit "Turing") 2 120 5
           (Raised (lit "Read timed out."))).
  reflexivity.
Defined.

(** X2.  When the decoded search reply is an object without a "query"
    key, or whose "query" is an object without a "search" key, the run
    fails with "No search results found" and sends no content request. *)
Theorem missing_keys_mean_no_results
    w query max_depth time_limit max_urls entries :
  search_get w query max_urls = Ok (VDict entries) ->
  (lookup (lit "query") entries = None \/
   exists inner,
     lookup (lit "query") entries = Some (VDict inner) /\
     lookup (lit "search") inner = None) ->
  exists eff,
    deep_research w query max_depth time_limit max_urls =
      (Failure (lit "No search results found"), eff) /\
    fetched eff = [].
Proof.
  intros Hsearch Hkeys. rewrite deep_research_cases, Hsearch.
  exists loop_start. split; [|reflexivity].
  unfold has_path. simpl.
  destruct Hkeys as [Hq|(inner & Hq & Hs)]; rewrite Hq; simpl;
    [reflexivity|].
  now rewrite Hs.
Qed.

Lemma missing_keys_mean_no_results_witness :
  exists eff,
    deep_research api_error (lit "Turing") 2 120 5 =
      (Failure (lit "No search results found"), eff) /\
    fetched eff = [].
Proof.
  eapply (@missing_keys_mean_no_results api_error (lit "Turing") 2 120 5).
  - reflexivity.
  - left. reflexivity.
Defined.

(** X4.  When the time limit has already passed at the first loop guard
    (the search alone took too long), no content request is sent and the
    run fails with "Could not retrieve any content", however many hits
    the search gave. *)
Theorem late_search_fetches_nothing
    w query max_depth time_limit max_urls search_data q hits :
  search_get w query max_urls = Ok search_data ->
  getitem search_data (lit "query") = Ok q ->
  getitem q (lit "search") = Ok (VList hits) ->
  hits <> [] ->
  guard_fires w time_limit 0 = true ->
  exists eff,
    deep_research w query max_depth time_limit max_urls =
      (Failure (lit "Could not retrieve any content"), eff) /\
    fetched eff = [].
Proof.
  intros Hsearch Hq Hs Hne Hfire.
  assert (Htruthy : truthy (VList hits) = true)
    by (destruct hits; [congruence | reflexivity]).
  rewrite (@deep_research_loop w query max_depth time_limit max_urls
             search_data q (VList hits) (VList (slice_to max_urls hits))
             (slice_to max_urls hits)) by auto.
  destruct (slice_to max_urls hits) as [|hit rest].
  - exists loop_start. split; reflexivity.
  - rewrite fetch_loop_cons. cbv zeta. unfold guard_fires in Hfire.
    simpl ticks. rewrite Hfire. simpl. eexists. split; reflexivity.
Qed.

Lemma late_search_fetches_nothing_witness :
  exists eff,
    deep_research turing_after_slow_search (lit "Turing") 2 120 2 =
      (Failure (lit "Could not retrieve any content"), eff) /\
    fetched eff = [].
Proof.
  apply (@late_search_fetches_nothing turing_after_slow_search
           (lit "Turing") 2 120 2
           (search_reply ["Alan Turing"; "Turing Award"])
           (VDict [(lit "search",
                    VList [hit "Alan Turing"; hit "Turing Award"])])
           [hit "Alan Turing"; hit "Turing Award"]).
  - reflexivity.
  - reflexivity.
  - reflexivity.
  - discriminate.
  - reflexivity.
Defined.

(** X5.  The summary of a successful run is the concatenation of the
    display blocks of its sources, in their order and numbered 1, 2, ...
    without a gap. *)
Theorem summary_renders_sources
    w query max_depth time_limit max_urls data eff :
  deep_research w query max_depth time_limit max_urls = (Success data, eff) ->
  summary data = concat (blocks (py w) 1 (sources data)).
Proof.
  intros Hrun.
  destruct (deep_research_success _ _ _ _ _ Hrun)
    as (sd & q & sr & capped & cands & loc & _ & _ & _ & _ & _ & _
        & Hloop & Hfin).
  destruct (fetch_loop_trace _ _ _ _ _ _ Hloop)
    as (_ & more & _ & _ & new & Hsrc & Hsum & _).
  simpl in Hsrc, Hsum. unfold finish in Hfin.
  assert (Hdata : data = {| query := query;
                             sources := results_sources loc;
                             summary := concat (content_summary loc) |}).
  { destruct (content_summary loc); [discriminate | congruence]. }
  subst data. cbn [summary sources]. now rewrite Hsum, Hsrc.
Qed.

Lemma summary_renders_sources_witness :
  exists data eff,
    deep_research turing (lit "Turing") 2 120 2 = (Success data, eff) /\
    summary data = concat (blocks quiet 1 (sources data)).
Proof.
  do 2 eexists. split; [vm_compute; reflexivity|].
  eapply (@summary_renders_sources turing (lit "Turing") 2 120 2).
  vm_compute. reflexivity.
Defined.

(** X6.  The titles of the sources of a successful run are, in the same
    order, titles the run requested: a source never appears before a
    source fetched earlier, and no request gives two sources. *)
Theorem sources_follow_request_order
    w query max_depth time_limit max_urls data eff :
  deep_research w query max_depth time_limit max_urls = (Success data, eff) ->
  subseq (map title (sources data)) (fetched eff).
Proof.
  intros Hrun.
  destruct (deep_research_success _ _ _ _ _ Hrun)
    as (sd & q & sr & capped & cands & loc & _ & _ & _ & _ & _ & _
        & Hloop & Hfin).
  destruct (fetch_loop_trace _ _ _ _ _ _ Hloop)
    as (_ & more & Hmore & _ & new & Hsrc & _ & _ & Hsub).
  simpl in Hsrc, Hmore. unfold finish in Hfin.
  destruct (content_summary loc); [discriminate|].
  inversion Hfin; subst data. simpl. now rewrite Hsrc, Hmore.
Qed.

Lemma sources_follow_request_order_witness :
  exists data eff,
    deep_research second_is_barren (lit "Turing") 2 120 2
      = (Success data, eff) /\
    length (sources data) = 1 /\ length (fetched eff) = 1 /\
    subseq (map title (sources data)) (fetched eff).
Proof.
  do 2 eexists. split; [vm_compute; reflexivity|].
  split; [reflexivity|]. split; [reflexivity|].
  eapply (@sources_follow_request_order second_is_barren (lit "Turing")
            2 120 2).
  vm_compute. reflexivity.
Defined.

(** A hit that is not an object makes [result.get] raise outside the
    inner [try]: the loop ends there, whatever it had collected. *)
Lemma fetch_loop_malformed w time_limit before bad after :
  Forall (fun h => is_dict h = true) before ->
  is_dict bad = false ->
  forall loc e,
    ticks e = S (length (fetched e)) ->
    (forall i, i <= length before ->
       guard_fires w time_limit (length (fetched e) + i) = false) ->
    exists e',
      fetch_loop w (clock w 0) time_limit (before ++ bad :: after) loc e
        = (Raise (Builtin AttributeError bad), e') /\
      length (fetched e') = length (fetched e) + length before.
Proof.
  intros Hdict Hbad.
  induction before as [|hit rest IH]; intros loc e Hinv Hquiet.
  - simpl app. rewrite fetch_loop_cons. cbv zeta.
    specialize (Hquiet 0 (Nat.le_refl _)). unfold guard_fires in Hquiet.
    rewrite Nat.add_0_r, <- Hinv in Hquiet. rewrite Hquiet.
    destruct bad; try discriminate; simpl;
      eexists; (split; [reflexivity | simpl; lia]).
  - inversion Hdict as [|? ? Hhit Hrest]; subst.
    simpl app. rewrite fetch_loop_cons. cbv zeta.
    pose proof (Hquiet 0 (Nat.le_0_l _)) as Hnow.
    unfold guard_fires in Hnow. rewrite Nat.add_0_r, <- Hinv in Hnow.
    rewrite Hnow.
    destruct hit as [| | | | |entries]; try discriminate.
    simpl get. cbv iota.
    match goal with
    | |- context [fetch_loop _ _ _ _ ?l ?s] =>
        destruct (IH Hrest l s) as (e' & Hrun & Hlen)
    end.
    + cbn [ticks fetched]. rewrite length_app. simpl. lia.
    + intros i Hi. cbn [fetched]. rewrite length_app. simpl.
      replace (length (fetched e) + 1 + i) with (length (fetched e) + S i)
        by lia.
      apply Hquiet. simpl. lia.
    + exists e'. split; [exact Hrun|].
      rewrite Hlen. cbn [fetched]. rewrite length_app. simpl. lia.
Qed.

(** X7.  A search hit that is not an object (so has no [get]) makes the
    whole run fail with "Research failed: ..." as soon as the loop
    reaches it: the sources accepted from the hits before it are
    discarded, after one content request for each of those hits. *)
Theorem malformed_hit_discards_everything
    w query max_depth time_limit max_urls search_data q hits before bad after :
  search_get w query max_urls = Ok search_data ->
  getitem search_data (lit "query") = Ok q ->
  getitem q (lit "search") = Ok (VList hits) ->
  slice_to max_urls hits = before ++ bad :: after ->
  Forall (fun h => is_dict h = true) before ->
  is_dict bad = false ->
  (forall i, i <= length before -> guard_fires w time_limit i = false) ->
  exists eff,
    deep_research w query max_depth time_limit max_urls =
      (Failure (lit "Research failed: " ++ errmsg (py w) AttributeError bad),
       eff) /\
    length (fetched eff) = length before.
Proof.
  intros Hsearch Hq Hs Hslice Hdict Hbad Hquiet.
  assert (Htruthy : truthy (VList hits) = true).
  { destruct hits; [|reflexivity].
    unfold slice_to in Hslice. destruct (0 <=? max_urls)%Z;
      rewrite firstn_nil in Hslice; now destruct before. }
  rewrite (@deep_research_loop w query max_depth time_limit max_urls
             search_data q (VList hits) (VList (slice_to max_urls hits))
             (slice_to max_urls hits)) by auto.
  rewrite Hslice.
  destruct (@fetch_loop_malformed w time_limit before bad after Hdict Hbad
              no_sources loop_start eq_refl Hquiet) as (e' & Hrun & Hlen).
  rewrite Hrun. exists e'. split; [reflexivity | exact Hlen].
Qed.

Lemma malformed_hit_discards_everything_witness :
  exists eff,
    deep_research second_hit_malformed (lit "Turing") 2 120 5 =
      (Failure (lit "Research failed: error"), eff) /\
    length (fetched eff) = 1.
Proof.
  apply (@malformed_hit_discards_everything second_hit_malformed
           (lit "Turing") 2 120 5
           (VDict [(lit "query",
                    VDict [(lit "search",
                            VList [hit "Alan Turing"; VNum 7])])])
           (VDict [(lit "search", VList [hit "Alan Turing"; VNum 7])])
           [hit "Alan Turing"; VNum 7]
           [hit "Alan Turing"] (VNum 7) []).
  - reflexivity.
  - reflexivity.
  - reflexivity.
  - reflexivity.
  - repeat constructor.
  - reflexivity.
  - intros i _. reflexivity.
Defined.

(** The requests of the loop are for the titles of the candidates it
    visited, one each and in their order. *)
Lemma fetch_loop_requests w start_time time_limit candidates :
  forall loc e r e',
    fetch_loop w start_time time_limit candidates loc e = (r, e') ->
    exists more,
      fetched e' = fetched e ++ more /\
      Forall2 title_of (firstn (length more) candidates) more.
Proof.
  induction candidates as [|hit rest IH]; intros loc e r e' H.
  - inversion H; subst. exists []. rewrite app_nil_r. split; constructor.
  - rewrite fetch_loop_cons in H. cbv zeta in H.
    destruct (expired start_time (clock w (ticks e)) time_limit).
    { inversion H; subst. exists []. simpl. rewrite app_nil_r.
      split; constructor. }
    destruct (get hit (lit "title") (VStr [])) as [title|x] eqn:Hget.
    2: { inversion H; subst. exists []. simpl. rewrite app_nil_r.
         split; constructor. }
    apply IH in H. cbn [fetched] in H. destruct H as (more & Hmore & Hall).
    exists (title :: more). rewrite Hmore, <- app_assoc.
    split; [reflexivity|]. simpl. constructor; [exact Hget | exact Hall].
Qed.

(** X8.  The content requests of a run are for the titles of the first
    search hits, in search order, one request per hit and none skipped:
    the [k] requests sent are for the first [k] of the capped hits. *)
Theorem requests_follow_search_order
    w query max_depth time_limit max_urls search_data q hits out eff :
  search_get w query max_urls = Ok search_data ->
  getitem search_data (lit "query") = Ok q ->
  getitem q (lit "search") = Ok (VList hits) ->
  deep_research w query max_depth time_limit max_urls = (out, eff) ->
  Forall2 title_of
    (firstn (length (fetched eff)) (slice_to max_urls hits))
    (fetched eff).
Proof.
  intros Hsearch Hq Hs Hrun.
  destruct hits as [|h hits'].
  - rewrite deep_research_cases, Hsearch in Hrun. unfold has_path in Hrun.
    rewrite (getitem_in _ _ Hq) in Hrun. simpl in Hrun.
    rewrite Hq in Hrun. simpl in Hrun.
    rewrite (getitem_in _ _ Hs), Hs in Hrun. simpl in Hrun.
    inversion Hrun; subst. simpl. constructor.
  - rewrite (@deep_research_loop w query max_depth time_limit max_urls
               search_data q (VList (h :: hits'))
               (VList (slice_to max_urls (h :: hits')))
               (slice_to max_urls (h :: hits'))) in Hrun by auto.
    destruct (fetch_loop w (clock w 0) time_limit
                (slice_to max_urls (h :: hits')) no_sources loop_start)
      as [r e] eqn:Hloop.
    inversion Hrun; subst. simpl.
    destruct (fetch_loop_requests _ _ _ _ _ _ Hloop) as (more & Hmore & Hall).
    simpl in Hmore. now rewrite Hmore.
Qed.

Lemma requests_follow_search_order_witness :
  Forall2 title_of
    (firstn 1 (slice_to 2 [hit "Alan Turing"; hit "Turing Award"]))
    [VStr (lit "Alan Turing")].
Proof.
  apply (@requests_follow_search_order turing (lit "Turing") 2 1 2
           (search_reply ["Alan Turing"; "Turing Award"])
           (VDict [(lit "search",
                    VList [hit "Alan Turing"; hit "Turing Award"])])
           [hit "Alan Turing"; hit "Turing Award"]
           (fst (deep_research turing (lit "Turing") 2 1 2))
           (snd (deep_research turing (lit "Turing") 2 1 2)));
    reflexivity.
Defined.

Lemma replace_char_removes old new s :
  old <> new -> ~ In old (replace_char old new s).
Proof.
  intros Hne Hin. unfold replace_char in Hin. apply in_map_iff in Hin.
  destruct Hin as (c & Hc & _).
  destruct (N.eqb_spec c old); congruence.
Qed.

(** X9.  The url of every source of a result holds no space, and is
    exactly 30 characters (the fixed prefix) longer than the title. *)
Theorem url_has_no_space
    w query max_depth time_limit max_urls data eff s :
  deep_research w query max_depth time_limit max_urls = (Success data, eff) ->
  In s (sources data) ->
  ~ In 32%N (url s) /\ length (url s) = 30 + len (title s).
Proof.
  intros Hrun Hin.
  destruct (deep_research_success _ _ _ _ _ Hrun)
    as (sd & q & sr & capped & cands & loc & _ & _ & _ & _ & _ & _
        & Hloop & Hfin).
  destruct (fetch_loop_spec _ _ _ _ _ _ Hloop)
    as [_ (new & Hsrc & _ & _ & Hall)].
  assert (Hdata : sources data = results_sources loc).
  { unfold finish in Hfin. destruct (content_summary loc); [discriminate|].
    inversion Hfin. reflexivity. }
  rewrite Hdata, Hsrc in Hin. simpl in Hin.
  rewrite Forall_forall in Hall.
  destruct (Hall s Hin)
    as (_ & _ & _ & _ & _ & _ & _ & t & _ & _ & Ht & _ & Hurl).
  rewrite Hurl, Ht. split.
  - intros Hspace. apply in_app_or in Hspace. destruct Hspace as [Hp|Hr].
    + vm_compute in Hp. intuition discriminate.
    + revert Hr. now apply replace_char_removes.
  - rewrite length_app. unfold replace_char. rewrite length_map.
    reflexivity.
Qed.

Lemma url_has_no_space_witness :
  let s := {| title := VStr (lit "Alan Turing");
              url := lit "https://en.wikipedia.org/wiki/Alan_Turing";
              snippet := VStr (lit "English mathematician") |} in
  ~ In 32%N (url s) /\ length (url s) = 30 + len (title s).
Proof.
  intros s.
  eapply (@url_has_no_space turing (lit "Turing") 2 120 2).
  - vm_compute. reflexivity.
  - left. reflexivity.
Defined.

(** A reply that yields a source yields it whatever was collected
    before, and the source carries the requested title. *)
Lemma after_reply_yields py title reply :
  yields_source py title reply = true ->
  exists s,
    Research.title s = title /\
    forall loc,
      after_reply py title loc reply
      = accept py (Research.title s) (snippet s) (url s) loc.
Proof.
  unfold yields_source, after_reply. destruct reply as [data|];
    [|discriminate].
  destruct (harvest py title data no_sources) as [found|] eqn:Hfound;
    [|discriminate].
  destruct (results_sources found) as [|s rest] eqn:Hsrc; [discriminate|].
  intros _. exists s. split.
  - destruct (harvest_spec _ _ _ _ Hfound) as [->|(s' & Hmade & Hext)];
      [discriminate Hsrc|].
    red in Hext. subst found. simpl in Hsrc. inversion Hsrc.
    destruct Hmade as (_ & _ & _ & _ & _ & Htitle & _). exact Htitle.
  - intros loc. rewrite (harvest_uniform py title data loc), Hfound, Hsrc.
    reflexivity.
Qed.

Lemma every_fetch_yields_tail w offset hit rest :
  every_fetch_yields w offset (hit :: rest) ->
  every_fetch_yields w (S offset) rest.
Proof.
  intros H i h title Hnth Hget.
  replace (S offset + i) with (offset + S i) by lia.
  now apply (H (S i) h title).
Qed.

Lemma every_fetch_yields_slice w hits n :
  every_fetch_yields w 0 hits -> every_fetch_yields w 0 (slice_to n hits).
Proof.
  intros H i h title Hnth Hget. apply (H i h title); [|exact Hget].
  unfold slice_to in Hnth.
  destruct (0 <=? n)%Z; rewrite nth_error_firstn in Hnth;
    match type of Hnth with
    | (if ?c then _ else _) = _ => destruct c; [exact Hnth | discriminate]
    end.
Qed.

(** With every fetch yielding and the deadline never passing, the loop
    accepts one source per candidate. *)
Lemma fetch_loop_complete w time_limit candidates :
  never_expires (clock w) time_limit ->
  Forall (fun h => is_dict h = true) candidates ->
  forall loc e,
    every_fetch_yields w (length (fetched e)) candidates ->
    exists loc' e' new,
      fetch_loop w (clock w 0) time_limit candidates loc e = (Ok loc', e') /\
      results_sources loc' = results_sources loc ++ new /\
      length (content_summary loc') =
        length (content_summary loc) + length new /\
      length new = length candidates /\
      fetched e' = fetched e ++ map title new.
Proof.
  intros Hfree Hdict.
  induction candidates as [|hit rest IH]; intros loc e Hyields.
  - exists loc, e, []. simpl. rewrite !app_nil_r. repeat split; auto.
  - inversion Hdict as [|? ? Hhit Hrest]; subst.
    rewrite fetch_loop_cons. cbv zeta. rewrite Hfree.
    destruct hit as [| | | | |entries]; try discriminate.
    destruct (get (VDict entries) (lit "title") (VStr []))
      as [title|] eqn:Hget; [|discriminate Hget].
    pose proof (Hyields 0 (VDict entries) title eq_refl Hget) as Hnow.
    rewrite Nat.add_0_r in Hnow.
    destruct (after_reply_yields _ _ _ Hnow) as (s & Htitle & Hafter).
    rewrite Hafter.
    match goal with
    | |- context [fetch_loop _ _ _ rest ?l ?st] =>
        destruct (IH Hrest l st) as (loc' & e' & new & Hrun & Hsrc & Hsum
                                    & Hlen & Hfetched)
    end.
    { cbn [fetched]. rewrite length_app. simpl.
      replace (length (fetched e) + 1) with (S (length (fetched e))) by lia.
      eapply every_fetch_yields_tail. exact Hyields. }
    exists loc', e', (s :: new). split; [exact Hrun|].
    cbn [accept results_sources content_summary fetched] in Hsrc, Hsum,
      Hfetched.
    rewrite <- app_assoc in Hsrc, Hfetched. rewrite length_app in Hsum.
    repeat split.
    + destruct s; exact Hsrc.
    + simpl in *. lia.
    + simpl. lia.
    + simpl. rewrite Htitle. exact Hfetched.
Qed.

(** X10.  When every hit is an object, every content fetch yields a
    source and the deadline never passes, a run with a positive cap
    succeeds with one source per hit up to the cap, min(hits, max_urls)
    in all, titled in search order by the titles it requested. *)
Theorem every_hit_becomes_a_source
    w query max_depth time_limit max_urls search_data q hits :
  (0 < max_urls)%Z ->
  search_get w query max_urls = Ok search_data ->
  getitem search_data (lit "query") = Ok q ->
  getitem q (lit "search") = Ok (VList hits) ->
  hits <> [] ->
  Forall (fun h => is_dict h = true) hits ->
  every_fetch_yields w 0 hits ->
  never_expires (clock w) time_limit ->
  exists data eff,
    deep_research w query max_depth time_limit max_urls
      = (Success data, eff) /\
    length (sources data) = Nat.min (Z.to_nat max_urls) (length hits) /\
    map title (sources data) = fetched eff.
Proof.
  intros Hcap Hsearch Hq Hs Hne Hdict Hyields Hfree.
  assert (Htruthy : truthy (VList hits) = true)
    by (destruct hits; [congruence | reflexivity]).
  rewrite (@deep_research_loop w query max_depth time_limit max_urls
             search_data q (VList hits) (VList (slice_to max_urls hits))
             (slice_to max_urls hits)) by auto.
  destruct (@fetch_loop_complete w time_limit (slice_to max_urls hits)
              Hfree (Forall_slice_to _ Hdict) no_sources loop_start
              (every_fetch_yields_slice max_urls Hyields))
    as (loc & e & new & Hrun & Hsrc & Hsum & Hlen & Hfetched).
  rewrite Hrun. simpl in Hsrc, Hsum, Hfetched |- *.
  assert (Hmany : length new = Nat.min (Z.to_nat max_urls) (length hits)).
  { rewrite Hlen. unfold slice_to.
    destruct (0 <=? max_urls)%Z eqn:E; [apply length_firstn | lia]. }
  assert (Hpos : 0 < length new).
  { rewrite Hmany. destruct hits; [congruence | simpl; lia]. }
  unfold finish. destruct (content_summary loc) as [|b bs] eqn:Hcs.
  - simpl in Hsum. lia.
  - do 2 eexists. split; [reflexivity|]. simpl. rewrite Hsrc, Hfetched.
    split; [exact Hmany | reflexivity].
Qed.

Lemma every_hit_becomes_a_source_witness :
  exists data eff,
    deep_research (with_clock turing standing_clock) (lit "Turing") 2 120 1
      = (Success data, eff) /\
    length (sources data) = 1 /\
    map title (sources data) = fetched eff.
Proof.
  apply (@every_hit_becomes_a_source (with_clock turing standing_clock)
           (lit "Turing") 2 120 1
           (search_reply ["Alan Turing"; "Turing Award"])
           (VDict [(lit "search",
                    VList [hit "Alan Turing"; hit "Turing Award"])])
           [hit "Alan Turing"; hit "Turing Award"]).
  - lia.
  - reflexivity.
  - reflexivity.
  - reflexivity.
  - discriminate.
  - repeat constructor.
  - intros [|[|i]] h title Hnth Hget; simpl in Hnth;
      [| | destruct i; discriminate Hnth];
      inversion Hnth; subst h; inversion Hget; reflexivity.
  - intros k. reflexivity.
Defined.

End ResearchMore.

(** ** More on the provider fallback and the summarizer *)

Module LlmMore.
Import Py Llm Replies Terms Samples MoreSamples PyFacts ResearchFacts.
Local Open Scope string_scope.
Local Open Scope list_scope.

Lemma openrouter_attempt_eq w key messages temperature log :
  openrouter_attempt w key messages temperature log =
    (openrouter_value (openrouter_post w key messages temperature),
     log ++ [OpenRouter]).
Proof.
  unfold openrouter_attempt, openrouter_value, bind, post, lift.
  destruct (openrouter_post w key messages temperature) as [resp|];
    [|reflexivity].
  simpl. destruct (raise_for_status resp); [|reflexivity].
  simpl. destruct (json resp); reflexivity.
Qed.

Lemma groq_attempt_eq w key messages temperature log :
  groq_attempt w key messages temperature log =
    (groq_value (groq_create w key messages temperature), log ++ [Groq]).
Proof.
  unfold groq_attempt, groq_value, bind, create, lift, ret.
  destruct (groq_create w key messages temperature) as [resp|];
    [|reflexivity].
  simpl. destruct (choices_0_message resp); reflexivity.
Qed.

(** [call_llm], case by case. *)
Lemma call_llm_cases w st messages temperature :
  call_llm w st messages temperature [] =
  let second (log : calls) :=
    if configured (groq_api_key st) then
      match groq_value (groq_create w (groq_api_key st) messages temperature)
      with
      | Ok v => (Ok v, log ++ [Groq])
      | Raise e =>
          (Raise (Raised (lit "Groq call failed: " ++ str_of_exn (py w) e)),
           log ++ [Groq])
      end
    else (Raise (Raised no_provider), log) in
  if configured (openrouter_api_key st) then
    match openrouter_value
            (openrouter_post w (openrouter_api_key st) messages temperature)
    with
    | Ok v => (Ok v, [OpenRouter])
    | Raise _ => second [OpenRouter]
    end
  else second [].
Proof.
  unfold call_llm. cbv zeta.
  destruct (configured (openrouter_api_key st)).
  - unfold bind at 1. unfold try_except at 1. unfold bind at 1.
    rewrite openrouter_attempt_eq.
    destruct (openrouter_value _) as [v|e]; [reflexivity|].
    unfold ret at 1. cbv iota beta.
    destruct (configured (groq_api_key st)); [|reflexivity].
    unfold try_except. rewrite groq_attempt_eq.
    destruct (groq_value _); reflexivity.
  - unfold bind at 1. unfold ret at 1. cbv iota beta.
    destruct (configured (groq_api_key st)); [|reflexivity].
    unfold try_except. rewrite groq_attempt_eq.
    destruct (groq_value _); reflexivity.
Qed.

(** X11.  With neither key set, [call_llm] raises "No LLM provider
    available. Set OpenRouter or Groq key in the sidebar." without
    calling a provider. *)
Theorem no_key_no_call w st messages temperature :
  configured (openrouter_api_key st) = false ->
  configured (groq_api_key st) = false ->
  call_llm w st messages temperature [] = (Raise (Raised no_provider), []).
Proof.
  intros H1 H2. rewrite call_llm_cases. cbv zeta. now rewrite H1, H2.
Qed.

Lemma no_key_no_call_witness :
  call_llm primary_up no_keys [] (7 # 10)%Q [] =
    (Raise (Raised no_provider), []).
Proof.
  apply (@no_key_no_call primary_up no_keys [] (7 # 10)%Q); reflexivity.
Defined.



(** X13.  When both providers are configured and both fail, [call_llm]
    raises "Groq call failed: " followed by the text of the secondary's
    exception; the primary's exception does not appear in it.  Each
    provider was called once, the primary first. *)
Theorem both_fail_reports_secondary w st messages temperature e1 e2 :
  configured (openrouter_api_key st) = true ->
  configured (groq_api_key st) = true ->
  openrouter_value
    (openrouter_post w (openrouter_api_key st) messages temperature)
    = Raise e1 ->
  groq_value (groq_create w (groq_api_key st) messages temperature)
    = Raise e2 ->
  call_llm w st messages temperature [] =
    (Raise (Raised (lit "Groq call failed: " ++ str_of_exn (py w) e2)),
     [OpenRouter; Groq]).
Proof.
  intros H1 H2 Hv1 Hv2. rewrite call_llm_cases. cbv zeta.
  now rewrite H1, H2, Hv1, Hv2.
Qed.

Lemma both_fail_reports_secondary_witness :
  call_llm both_down both_keys [] (7 # 10)%Q [] =
    (Raise (Raised (lit "Groq call failed: Connection error.")),
     [OpenRouter; Groq]).
Proof.
  apply (@both_fail_reports_secondary both_down both_keys [] (7 # 10)%Q
           (Raised (lit "503 Server Error: Service Unavailable"))
           (Raised (lit "Connection error."))); reflexivity.
Defined.

(** X14.  When only the primary is configured and it fails, [call_llm]
    raises "No LLM provider available. Set OpenRouter or Groq key in the
    sidebar.": the error names no failure of the primary, which was
    called once. *)
Theorem lone_primary_failure_reads_as_no_provider
    w st messages temperature e :
  configured (openrouter_api_key st) = true ->
  configured (groq_api_key st) = false ->
  openrouter_value
    (openrouter_post w (openrouter_api_key st) messages temperature)
    = Raise e ->
  call_llm w st messages temperature [] =
    (Raise (Raised no_provider), [OpenRouter]).
Proof.
  intros H1 H2 Hv. rewrite call_llm_cases. cbv zeta.
  now rewrite H1, H2, Hv.
Qed.

Lemma lone_primary_failure_reads_as_no_provider_witness :
  call_llm both_down primary_key_only [] (7 # 10)%Q [] =
    (Raise (Raised no_provider), [OpenRouter]).
Proof.
  apply (@lone_primary_failure_reads_as_no_provider both_down
           primary_key_only [] (7 # 10)%Q
           (Raised (lit "503 Server Error: Service Unavailable")));
    reflexivity.
Defined.

(** X15.  Whatever the replies, [call_llm] calls a configured primary
    exactly once and first, never calls a provider whose key is not set,
    and calls the secondary at most once and only after the primary: the
    log of calls is the primary (when configured) followed by at most
    one call of a configured secondary. *)
Theorem calls_are_ordered_and_configured w st messages temperature :
  let log := snd (call_llm w st messages temperature []) in
  exists tried_secondary : bool,
    log = (if configured (openrouter_api_key st) then [OpenRouter] else [])
          ++ (if tried_secondary then [Groq] else []) /\
    implb tried_secondary (configured (groq_api_key st)) = true.
Proof.
  rewrite call_llm_cases. cbv zeta.
  destruct (configured (openrouter_api_key st));
    [destruct (openrouter_value _) as [v|e]|];
    try (exists false; split; reflexivity).
  all: destruct (configured (groq_api_key st));
    [|exists false; split; reflexivity].
  all: destruct (groq_value _); exists true; split; reflexivity.
Qed.

Lemma slice_to_twice (A : Type) (n : Z) (l : list A) :
  (0 <= n)%Z -> slice_to n (slice_to n l) = slice_to n l.
Proof.
  intros Hn. unfold slice_to.
  destruct (0 <=? n)%Z eqn:E; [|lia].
  now rewrite firstn_firstn, Nat.min_id.
Qed.

Lemma slice_200_twice v head :
  slice v 200 = Ok head -> slice head 200 = Ok head.
Proof.
  destruct v; intros H; try discriminate H;
    unfold slice in H; inversion H; subst; unfold slice;
    now rewrite slice_to_twice by lia.
Qed.

Lemma source_line_cut py s : source_line py (cut_source s) = source_line py s.
Proof.
  unfold cut_source, source_line.
  destruct (slice (Research.snippet s) 200) as [head|] eqn:H; simpl.
  - now rewrite (slice_200_twice _ H).
  - now rewrite H.
Qed.

Lemma source_lines_cut py l :
  source_lines py (map cut_source l) = source_lines py l.
Proof.
  induction l as [|s rest IH]; simpl; [reflexivity|].
  now rewrite source_line_cut, IH.
Qed.

(** X16.  The prompt is built from the first five sources, and of each
    from the title and the first 200 characters of the snippet: a result
    and the same result cut to that (query, summary, urls, later sources
    and the rest of each snippet dropped) give the same messages. *)
Theorem prompt_reads_five_sources_cut_at_200 py research_data query :
  build_messages py (cut research_data) query
  = build_messages py research_data query.
Proof.
  unfold build_messages, cut. cbn [Research.sources].
  replace (slice_to 5 (map cut_source
                         (slice_to 5 (Research.sources research_data))))
    with (map cut_source (slice_to 5 (Research.sources research_data))).
  - now rewrite source_lines_cut.
  - change 5%Z with (Z.of_nat 5). unfold slice_to.
    rewrite (proj2 (Z.leb_le 0 (Z.of_nat 5))) by lia.
    rewrite Nat2Z.id, firstn_map, firstn_firstn. reflexivity.
Qed.

Lemma source_lines_total py l :
  Forall (fun s => exists head, slice (Research.snippet s) 200 = Ok head) l ->
  exists lines, source_lines py l = Ok lines /\ length lines = length l.
Proof.
  induction 1 as [|s rest [head Hs] _ (lines & IH & Hlen)]; simpl.
  - now exists [].
  - unfold source_line. rewrite Hs. simpl. rewrite IH. simpl.
    eexists. split; [reflexivity | simpl; now rewrite Hlen].
Qed.

(** X17.  On the result of a successful run of the pipeline, building
    the prompt never raises, so with a key set the summarizer's answer is
    decided by the provider call alone: the content [call_llm] returns,
    or "Summary generation failed: " followed by the text of the
    exception [call_llm] raises. *)
Theorem summary_of_pipeline_result
    world query max_depth time_limit max_urls data eff w st topic :
  Research.deep_research world query max_depth time_limit max_urls
    = (Research.Success data, eff) ->
  configured (openrouter_api_key st) || configured (groq_api_key st) = true ->
  exists messages,
    build_messages (py w) data topic = Ok messages /\
    map role messages = [lit "system"; lit "user"] /\
    generate_summary w st data topic [] =
      match call_llm w st messages (7 # 10)%Q [] with
      | (Ok v, log) => (Ok v, log)
      | (Raise e, log) => (Ok (generation_failed (py w) e), log)
      end.
Proof.
  intros Hrun Hkey.
  destruct (deep_research_success _ _ _ _ _ Hrun)
    as (sd & q & sr & capped & cands & loc & _ & _ & _ & _ & _ & _
        & Hloop & Hfin).
  destruct (fetch_loop_spec _ _ _ _ _ _ Hloop)
    as [_ (new & Hsrc & _ & _ & Hall)].
  assert (Hdata : Research.sources data = new).
  { unfold Research.finish in Hfin.
    destruct (Research.content_summary loc); [discriminate|].
    inversion Hfin. simpl. exact Hsrc. }
  assert (Hsliceable :
            Forall (fun s => exists head,
                        slice (Research.snippet s) 200 = Ok head)
                   (slice_to 5 (Research.sources data))).
  { apply Forall_slice_to. rewrite Hdata.
    eapply Forall_impl; [|exact Hall].
    intros s (_ & _ & _ & _ & _ & _ & ex & _ & _ & Hcut & _).
    destruct ex; simpl in Hcut; try discriminate; inversion Hcut;
      simpl; eauto. }
  destruct (source_lines_total (py w) Hsliceable) as (lines & Hlines & _).
  eexists. split; [|split].
  - unfold build_messages. rewrite Hlines. reflexivity.
  - reflexivity.
  - unfold generate_summary. rewrite Hkey. simpl.
    unfold try_except, summary_attempt, bind, lift, build_messages.
    rewrite Hlines. simpl.
    destruct (call_llm w st _ _ []) as [[v|e] log]; reflexivity.
Qed.

Lemma summary_of_pipeline_result_witness :
  exists data messages,
    fst (Research.deep_research turing (lit "Turing") 2 120 2)
      = Research.Success data /\
    build_messages quiet data (lit "Turing") = Ok messages /\
    map role messages = [lit "system"; lit "user"] /\
    generate_summary both_down both_keys data (lit "Turing") [] =
      match call_llm both_down both_keys messages (7 # 10)%Q [] with
      | (Ok v, log) => (Ok v, log)
      | (Raise e, log) => (Ok (generation_failed quiet e), log)
      end.
Proof.
  eexists. 
  destruct (@summary_of_pipeline_result turing (lit "Turing") 2 120 2
              _ _ both_down both_keys (lit "Turing")
              ltac:(vm_compute; reflexivity) eq_refl)
    as (messages & H1 & H2 & H3).
  exists messages. split; [vm_compute; reflexivity|].
  repeat split; assumption.
Defined.

End LlmMore.

(** ** The exports *)

Module ExportFacts.
Import Py Reports.
Local Open Scope string_scope.
Local Open Scope list_scope.

Lemma replace_from_skip old new k s :
  replace_from old new k s = replace_from old new 0 (skipn k s).
Proof.
  revert k. induction s as [|c rest IH]; intros [|k]; simpl; auto.
Qed.

Lemma starts_with_app old rest : starts_with old (old ++ rest) = true.
Proof.
  induction old as [|a old IH]; simpl; [reflexivity|].
  now rewrite N.eqb_refl, IH.
Qed.

Lemma starts_with_split old s :
  starts_with old s = true -> s = old ++ skipn (length old) s.
Proof.
  revert s. induction old as [|a old IH]; intros s H; [reflexivity|].
  destruct s as [|b s]; [discriminate|]. simpl in H.
  apply andb_prop in H. destruct H as [Hab Hrest].
  apply N.eqb_eq in Hab. subst b. simpl. f_equal. now apply IH.
Qed.

(** At a match the whole of [old] is passed over. *)
Lemma replace_from_match old new s :
  old <> [] -> starts_with old s = true ->
  replace_from old new 0 s
  = new ++ replace_from old new 0 (skipn (length old) s).
Proof.
  intros Hold H. destruct s as [|c rest].
  - destruct old; [congruence | discriminate].
  - cbn [replace_from]. rewrite H. rewrite replace_from_skip.
    destruct old as [|a old]; [congruence|]. simpl.
    now rewrite Nat.sub_0_r.
Qed.

Lemma replace_from_miss old new c rest :
  starts_with old (c :: rest) = false ->
  replace_from old new 0 (c :: rest) = c :: replace_from old new 0 rest.
Proof. intros H. cbn [replace_from]. now rewrite H. Qed.

Lemma starts_with_run c n s :
  starts_with (repeat c n) s = true <-> n <= lead c s.
Proof.
  revert s. induction n as [|n IH]; intros s; simpl.
  - split; [lia | reflexivity].
  - destruct s as [|x rest]; simpl.
    + split; [discriminate | lia].
    + rewrite N.eqb_sym. destruct (N.eqb x c).
      * simpl. rewrite IH. lia.
      * simpl. split; [discriminate | lia].
Qed.

(** Deleting every run of [n] characters [c], taken from the left, leaves
    fewer than [n] of them in a row. *)
Lemma delete_run_spec c n :
  0 < n ->
  forall m s, length s <= m ->
    contains (repeat c n) (replace_from (repeat c n) [] 0 s) = false /\
    lead c (replace_from (repeat c n) [] 0 s) < n /\
    (lead c s < n -> lead c (replace_from (repeat c n) [] 0 s) = lead c s).
Proof.
  intros Hn.
  assert (Hold : repeat c n <> []) by (destruct n; [lia | discriminate]).
  assert (Hnil : starts_with (repeat c n) [] = false)
    by (destruct n; [lia | reflexivity]).
  induction m as [|m IH]; intros s Hlen.
  - destruct s; [|simpl in Hlen; lia]. simpl. rewrite Hnil. repeat split; lia.
  - destruct s as [|x rest].
    { simpl. rewrite Hnil. repeat split; lia. }
    destruct (starts_with (repeat c n) (x :: rest)) eqn:Hmatch.
    + rewrite (@replace_from_match _ [] _ Hold Hmatch). simpl app.
      destruct (IH (skipn (length (repeat c n)) (x :: rest)))
        as (Hno & Hlead & _).
      { rewrite length_skipn, repeat_length. cbn [length] in *. lia. }
      repeat split; auto.
      apply starts_with_run in Hmatch. lia.
    + rewrite (@replace_from_miss _ [] _ _ Hmatch).
      destruct (IH rest ltac:(simpl in Hlen; lia)) as (Hno & Hlead & Hsame).
      assert (Hshort : lead c (x :: rest) < n).
      { destruct (le_lt_dec n (lead c (x :: rest))) as [Hge|]; [|assumption].
        apply starts_with_run in Hge. congruence. }
      assert (Hout : lead c (x :: replace_from (repeat c n) [] 0 rest)
                     = lead c (x :: rest)).
      { simpl in Hshort |- *. destruct (N.eqb x c); [|reflexivity].
        rewrite Hsame; [reflexivity | lia]. }
      repeat split.
      * cbn [contains]. rewrite Hno, orb_false_r.
        destruct (starts_with (repeat c n)
                    (x :: replace_from (repeat c n) [] 0 rest)) eqn:E;
          [|reflexivity].
        apply starts_with_run in E. lia.
      * lia.
      * intros _. exact Hout.
Qed.

Lemma delete_run_leaves_none c n s :
  0 < n -> contains (repeat c n) (replace (repeat c n) [] s) = false.
Proof.
  intros Hn. unfold replace.
  destruct (repeat c n) eqn:E; [destruct n; [lia | discriminate]|].
  rewrite <- E.
  now apply (@delete_run_spec c n Hn (length s) s (Nat.le_refl _)).
Qed.

(** A deletion only drops characters. *)
Lemma deletion_keeps_only old m :
  forall s x, length s <= m ->
    In x (replace_from old [] 0 s) -> In x s.
Proof.
  induction m as [|m IH]; intros s x Hlen Hin.
  - destruct s; [exact Hin | simpl in Hlen; lia].
  - destruct s as [|c rest]; [exact Hin|].
    destruct (starts_with old (c :: rest)) eqn:Hmatch.
    + destruct old as [|a old].
      { cbn [replace_from] in Hin. rewrite Hmatch in Hin. simpl in Hin.
        right. apply IH; [simpl in Hlen; lia | exact Hin]. }
      rewrite replace_from_match in Hin by (auto; discriminate).
      simpl app in Hin. apply IH in Hin.
      * rewrite <- (firstn_skipn (length (a :: old)) (c :: rest)).
        apply in_or_app. now right.
      * rewrite length_skipn. cbn [length] in *. lia.
    + rewrite replace_from_miss in Hin by assumption.
      destruct Hin as [->|Hin]; [now left|].
      right. apply IH; [simpl in Hlen; lia | exact Hin].
Qed.

Lemma deletion_length old m :
  forall s, length s <= m -> length (replace_from old [] 0 s) <= length s.
Proof.
  induction m as [|m IH]; intros s Hlen.
  - destruct s; [simpl; lia | simpl in Hlen; lia].
  - destruct s as [|c rest]; [simpl; lia|].
    destruct (starts_with old (c :: rest)) eqn:Hmatch.
    + destruct old as [|a old].
      { cbn [replace_from]. rewrite Hmatch. simpl.
        specialize (IH rest ltac:(simpl in Hlen; lia)). lia. }
      rewrite replace_from_match by (auto; discriminate). cbn [app].
      assert (Hshorter : length (skipn (length (a :: old)) (c :: rest)) <= m)
        by (rewrite length_skipn; cbn [length] in *; lia).
      specialize (IH _ Hshorter). rewrite length_skipn in IH.
      cbn [length] in *. lia.
    + rewrite replace_from_miss by assumption. simpl.
      specialize (IH rest ltac:(simpl in Hlen; lia)). lia.
Qed.

Lemma contains_single c s : contains [c] s = false -> ~ In c s.
Proof.
  induction s as [|x rest IH]; simpl; [tauto|].
  intros H. apply orb_false_elim in H. destruct H as [Hx Hrest].
  rewrite andb_true_r in Hx. intros [->|Hin].
  - now rewrite N.eqb_refl in Hx.
  - now apply IH.
Qed.

Lemma delete_char_leaves_none c s : ~ In c (replace [c] [] s).
Proof.
  apply contains_single.
  exact (@delete_run_leaves_none c 1 s ltac:(lia)).
Qed.

Lemma delete_absent_char c s : ~ In c s -> replace [c] [] s = s.
Proof.
  unfold replace. induction s as [|x rest IH]; intros H; [reflexivity|].
  cbn [replace_from starts_with].
  destruct (N.eqb_spec c x) as [->|Hne].
  - exfalso. apply H. now left.
  - simpl. f_equal. apply IH. intros Hin. apply H. now right.
Qed.

Lemma deletion_is_shorter old s :
  old <> [] -> length (replace old [] s) <= length s.
Proof.
  intros Hold. unfold replace. destruct old as [|a old]; [congruence|].
  now apply (@deletion_length (a :: old) (length s)).
Qed.

Lemma deletion_adds_nothing old s x :
  old <> [] -> In x (replace old [] s) -> In x s.
Proof.
  intros Hold. unfold replace. destruct old as [|a old]; [congruence|].
  now apply (@deletion_keeps_only (a :: old) (length s)).
Qed.

(** X18.  The "text" format of [download_report] gives a text that holds
    neither the link emoji nor the book emoji and is never longer than
    the content. *)
Theorem text_report_has_no_emoji content filename :
  let out := download_report content (lit "text") filename in
  ~ In link_emoji out /\ ~ In book_emoji out /\
  length out <= length content.
Proof.
  change (download_report content (lit "text") filename)
    with (replace [book_emoji] []
            (replace [link_emoji] [] (replace (lit "**") [] content))).
  cbv zeta. repeat split.
  - intros Hin. apply deletion_adds_nothing in Hin; [|discriminate].
    revert Hin. apply delete_char_leaves_none.
  - apply delete_char_leaves_none.
  - etransitivity; [apply deletion_is_shorter; discriminate|].
    etransitivity; [apply deletion_is_shorter; discriminate|].
    apply deletion_is_shorter. discriminate.
Qed.

(** X19.  For a content that holds neither emoji, the "text" format of
    [download_report] leaves no "**" in the text. *)
Theorem text_report_has_no_bold_marker content filename :
  ~ In link_emoji content -> ~ In book_emoji content ->
  contains (lit "**") (download_report content (lit "text") filename) = false.
Proof.
  intros Hlink Hbook.
  change (download_report content (lit "text") filename)
    with (replace [book_emoji] []
            (replace [link_emoji] [] (replace (lit "**") [] content))).
  assert (Hkeep : forall c, ~ In c content ->
                            ~ In c (replace (lit "**") [] content)).
  { intros c Hc Hin. apply Hc.
    apply deletion_adds_nothing in Hin; [exact Hin | discriminate]. }
  rewrite (@delete_absent_char link_emoji _ (Hkeep _ Hlink)).
  rewrite (@delete_absent_char book_emoji _ (Hkeep _ Hbook)).
  exact (@delete_run_leaves_none 42%N 2 content ltac:(lia)).
Qed.

Lemma text_report_has_no_bold_marker_witness :
  contains (lit "**")
    (download_report (lit "1. **Alan Turing** (***)") (lit "text")
       (lit "report.txt")) = false.
Proof.
  apply text_report_has_no_bold_marker; vm_compute; intuition discriminate.
Defined.

(** With a link emoji between two asterisks the marker comes back. *)
Example bold_marker_can_come_back :
  download_report [42; link_emoji; 42]%N (lit "text") [] = lit "**".
Proof. reflexivity. Qed.

(** X20.  The data of the "Text" download holds no "###" and is never
    longer than the report. *)
Theorem text_download_has_no_heading_marker report_content :
  contains (lit "###") (text_download report_content) = false /\
  length (text_download report_content) <= length report_content.
Proof.
  unfold text_download. split.
  - exact (@delete_run_leaves_none 35%N 3 _ ltac:(lia)).
  - etransitivity; [apply deletion_is_shorter; discriminate|].
    apply deletion_is_shorter. discriminate.
Qed.

End ExportFacts.

(** ** The session state *)

Module SessionFacts.
Import Py Research Terms Session Samples MoreSamples PyFacts ResearchFacts.
Local Open Scope string_scope.
Local Open Scope list_scope.

Lemma rerun_presentable w i research_results :
  within_sliders i ->
  presentable research_results ->
  presentable (rerun w i research_results).
Proof.
  intros Hsliders Hok. destruct i as [|topic d t n|]; simpl; auto.
  destruct topic as [|c topic]; [exact Hok|].
  destruct (deep_research w (c :: topic) d t n) as [out eff] eqn:Hrun.
  destruct out as [data|]; [|exact Hok]. simpl. simpl in Hsliders.
  destruct (deep_research_success _ _ _ _ _ Hrun)
    as (sd & q & sr & capped & cands & loc & _ & _ & _ & _ & Hsl & Hit
        & Hloop & Hfin).
  pose proof (@iterate_slice_length sr n capped cands ltac:(lia) Hsl Hit)
    as Hlen.
  destruct (fetch_loop_spec _ _ _ _ _ _ Hloop)
    as [_ (new & Hsrc & Hsum & Hnew & _)].
  simpl in Hsrc, Hsum. unfold finish in Hfin.
  destruct (content_summary loc) as [|b bs]; [discriminate|].
  inversion Hfin; subst data. simpl. rewrite Hsrc. simpl in Hsum.
  split; [discriminate | lia].
Qed.

(** X21.  Through any sequence of button presses with the source slider
    in its range of 1 to 20, whatever Wikipedia answers each time,
    [st.session_state.research_results] is either empty or the data of a
    run with a non-empty topic and between 1 and 20 sources: a failed run
    or a press with no topic never stores anything. *)
Theorem stored_results_stay_presentable history :
  Forall (fun step => within_sliders (snd step)) history ->
  presentable (session history None).
Proof.
  assert (Hgen : forall start,
             Forall (fun step => within_sliders (snd step)) history ->
             presentable start -> presentable (session history start)).
  { induction history as [|[w i] later IH]; intros start Hall Hstart;
      [exact Hstart|].
    inversion Hall; subst. simpl. apply IH; [assumption|].
    now apply rerun_presentable. }
  intros Hall. apply Hgen; [exact Hall | exact I].
Qed.

Lemma stored_results_stay_presentable_witness :
  let history :=
    [(turing, SearchClicked (lit "Turing") 2 120 2);
     (every_fetch_fails, SearchClicked (lit "Turing") 2 120 5);
     (turing, SearchClicked [] 2 120 5)] in
  presentable (session history None) /\
  exists data, session history None = Some data /\ length (sources data) = 2.
Proof.
  intros history. split.
  - apply stored_results_stay_presentable.
    repeat constructor; simpl; lia.
  - eexists. split; [vm_compute; reflexivity | reflexivity].
Defined.

End SessionFacts.
